(** * SPPmigrate: a shallow embedding of [SPPmigrate.py]

    The program copies a directory tree with the macOS [ditto] command,
    checks an MD5 digest of every copied file and reports file and error
    counts.  The embedding follows the source function by function:
    [query_yes_no], [checksum_md5], [copy_file], [copy_dir], [do_copy],
    [do_main] and the [__main__] block.  The Python library calls the
    program makes ([hashlib.md5], [binascii.hexlify], [os.path.*], [os.walk],
    [os.listdir], [os.mkdir], [open]) are modelled after the Python 2.7
    library on a small POSIX file system; the external [ditto] command is a
    parameter of the development. *)

From Stdlib Require Import ZArith List Bool Lia FunInd Recdef.
From Stdlib.Strings Require Import String Ascii Byte.
From Stdlib Require Import DecimalString.
Import ListNotations.

Local Open Scope Z_scope.

(** ** [hashlib.md5] and [binascii.hexlify] *)

Module MD5.

Definition add32 (a b : Z) : Z := (a + b) mod 2 ^ 32.

Definition not32 (x : Z) : Z := Z.lxor x (2 ^ 32 - 1).

Definition rotl32 (x n : Z) : Z :=
  Z.lor (Z.shiftl x n mod 2 ^ 32) (Z.shiftr x (32 - n)).

(** The sine table [floor (2^32 * |sin (i + 1)|)]. *)
Definition K : list Z :=
  [ 0xd76aa478; 0xe8c7b756; 0x242070db; 0xc1bdceee;
    0xf57c0faf; 0x4787c62a; 0xa8304613; 0xfd469501;
    0x698098d8; 0x8b44f7af; 0xffff5bb1; 0x895cd7be;
    0x6b901122; 0xfd987193; 0xa679438e; 0x49b40821;
    0xf61e2562; 0xc040b340; 0x265e5a51; 0xe9b6c7aa;
    0xd62f105d; 0x02441453; 0xd8a1e681; 0xe7d3fbc8;
    0x21e1cde6; 0xc33707d6; 0xf4d50d87; 0x455a14ed;
    0xa9e3e905; 0xfcefa3f8; 0x676f02d9; 0x8d2a4c8a;
    0xfffa3942; 0x8771f681; 0x6d9d6122; 0xfde5380c;
    0xa4beea44; 0x4bdecfa9; 0xf6bb4b60; 0xbebfbc70;
    0x289b7ec6; 0xeaa127fa; 0xd4ef3085; 0x04881d05;
    0xd9d4d039; 0xe6db99e5; 0x1fa27cf8; 0xc4ac5665;
    0xf4292244; 0x432aff97; 0xab9423a7; 0xfc93a039;
    0x655b59c3; 0x8f0ccc92; 0xffeff47d; 0x85845dd1;
    0x6fa87e4f; 0xfe2ce6e0; 0xa3014314; 0x4e0811a1;
    0xf7537e82; 0xbd3af235; 0x2ad7d2bb; 0xeb86d391 ].

(** Per-round left rotations. *)
Definition shifts : list Z :=
  [ 7; 12; 17; 22; 7; 12; 17; 22; 7; 12; 17; 22; 7; 12; 17; 22;
    5; 9; 14; 20; 5; 9; 14; 20; 5; 9; 14; 20; 5; 9; 14; 20;
    4; 11; 16; 23; 4; 11; 16; 23; 4; 11; 16; 23; 4; 11; 16; 23;
    6; 10; 15; 21; 6; 10; 15; 21; 6; 10; 15; 21; 6; 10; 15; 21 ].

Definition words4 : Type := (Z * Z * Z * Z)%type.

Definition h0 : words4 := (0x67452301, 0xefcdab89, 0x98badcfe, 0x10325476).

(** Little-endian 32-bit word from four bytes. *)
Definition word_of (b0 b1 b2 b3 : Z) : Z :=
  b0 + 256 * b1 + 65536 * b2 + 16777216 * b3.

Fixpoint words_of (bs : list Z) : list Z :=
  match bs with
  | b0 :: b1 :: b2 :: b3 :: r => word_of b0 b1 b2 b3 :: words_of r
  | _ => []
  end.

Definition bytes_of (w : Z) : list Z :=
  [ w mod 256; (w / 256) mod 256; (w / 65536) mod 256;
    (w / 16777216) mod 256 ].

Definition round (M : list Z) (st : words4) (i : nat) : words4 :=
  let '(a, b, c, d) := st in
  let zi := Z.of_nat i in
  let '(f, g) :=
    if zi <? 16 then
      (Z.lor (Z.land b c) (Z.land (not32 b) d), zi)
    else if zi <? 32 then
      (Z.lor (Z.land d b) (Z.land (not32 d) c), (5 * zi + 1) mod 16)
    else if zi <? 48 then
      (Z.lxor (Z.lxor b c) d, (3 * zi + 5) mod 16)
    else
      (Z.lxor c (Z.lor b (not32 d)), (7 * zi) mod 16) in
  let f' := add32 (add32 (add32 f a) (nth i K 0)) (nth (Z.to_nat g) M 0) in
  (d, add32 b (rotl32 f' (nth i shifts 0)), b, c).

(** One 64-byte block folded into the chaining value. *)
Definition compress (h : words4) (block : list Z) : words4 :=
  let '(a0, b0, c0, d0) := h in
  let '(a, b, c, d) := fold_left (round (words_of block)) (seq 0 64) h in
  (add32 a0 a, add32 b0 b, add32 c0 c, add32 d0 d).

(** The hash object: chaining value, the bytes of the block being filled,
    and the number of bytes fed so far. *)
Record t : Type := mk { chain : words4; pending : list Z; fed : Z }.

Definition block_size : nat := 64.
Definition digest_size : nat := 16.

Definition new : t := mk h0 [] 0.

Definition absorb (o : t) (b : Z) : t :=
  let blk := (pending o ++ [b])%list in
  if Nat.eqb (List.length blk) block_size
  then mk (compress (chain o) blk) [] (fed o + 1)
  else mk (chain o) blk (fed o + 1).

(** [md5.update(chunk)] *)
Definition update (o : t) (chunk : list Z) : t := fold_left absorb chunk o.

Definition len_bytes (bits : Z) : list Z :=
  map (fun k => (bits / 256 ^ Z.of_nat k) mod 256) (seq 0 8).

Definition padding (o : t) : list Z :=
  let used := (List.length (pending o) + 1)%nat in
  let zeros := ((120 - used) mod 64)%nat in
  (128 :: repeat 0 zeros ++ len_bytes ((8 * fed o) mod 2 ^ 64))%list.

(** [md5.digest()]: sixteen bytes. *)
Definition digest (o : t) : list Z :=
  let '(a, b, c, d) := chain (update o (padding o)) in
  (bytes_of a ++ bytes_of b ++ bytes_of c ++ bytes_of d)%list.

End MD5.

Definition hex_digits : list ascii :=
  list_ascii_of_string "0123456789abcdef".

Definition hex_digit (n : Z) : ascii :=
  nth (Z.to_nat (n mod 16)) hex_digits "0"%char.

(** [binascii.hexlify(bs).decode('utf-8')] *)
Fixpoint hexlify (bs : list Z) : string :=
  match bs with
  | [] => EmptyString
  | b :: r => String (hex_digit (b / 16)) (String (hex_digit b) (hexlify r))
  end.

Definition byte_val (b : byte) : Z := Z.of_N (Byte.to_N b).

(** The bytes of a text. *)
Definition text (s : string) : list byte := list_byte_of_string s.

(** The digest of a whole byte string, as the program prints it. *)
Definition md5_hex (content : list byte) : string :=
  hexlify (MD5.digest (MD5.update MD5.new (map byte_val content))).


(** ** Python values, exceptions and results *)

(** The few Python values the program compares with [==]. *)
Inductive pyval : Type :=
| VNone
| VBool (b : bool)
| VInt (z : Z)
| VStr (s : string).

(** Python's [==] on those values: a [str] is never equal to a [bool]. *)
Definition py_eq (a b : pyval) : bool :=
  match a, b with
  | VNone, VNone => true
  | VBool x, VBool y => Bool.eqb x y
  | VInt x, VInt y => Z.eqb x y
  | VBool x, VInt y | VInt y, VBool x => Z.eqb (if x then 1 else 0) y
  | VStr x, VStr y => String.eqb x y
  | _, _ => false
  end.

Inductive errno : Type := ENOENT | EEXIST | ENOTDIR | EISDIR | ELOOP | EACCES.

Inductive exn : Type :=
| IndexError
| EOFError
| ValueError
| IOError (e : errno) (path : string)
| OSError (e : errno) (path : string)
| CalledProcessError (status : Z).

Inductive result (A : Type) : Type :=
| Ok (a : A)
| Raise (e : exn).
Arguments Ok {A} a.
Arguments Raise {A} e.

(** ** [posixpath] *)

Module posixpath.

Definition isabs (s : string) : bool := String.prefix "/" s.

Fixpoint endswith_slash (s : string) : bool :=
  match s with
  | EmptyString => false
  | String c EmptyString => Ascii.eqb c "/"
  | String _ r => endswith_slash r
  end.

(** [join(a, b)] *)
Definition join (a b : string) : string :=
  if isabs b then b
  else if (a =? "")%string || endswith_slash a then (a ++ b)%string
  else (a ++ "/" ++ b)%string.

(** [s.split('/')] *)
Fixpoint split (s : string) : list string :=
  match s with
  | EmptyString => [EmptyString]
  | String c r =>
      if Ascii.eqb c "/" then EmptyString :: split r
      else match split r with
           | h :: t => String c h :: t
           | [] => [String c EmptyString]
           end
  end.

Definition initial_slashes (path : string) : nat :=
  if isabs path then
    if String.prefix "//" path && negb (String.prefix "///" path)
    then 2%nat else 1%nat
  else 0%nat.

(** The loop of [normpath] over the components; [new_comps] is kept in
    reverse. *)
Fixpoint normpath_loop (slashes : nat) (comps rev_new : list string)
  : list string :=
  match comps with
  | [] => rev rev_new
  | comp :: r =>
      if (comp =? "")%string || (comp =? ".")%string then
        normpath_loop slashes r rev_new
      else if negb (comp =? "..")%string
              || (Nat.eqb slashes 0 && match rev_new with [] => true | _ => false end)
              || match rev_new with last :: _ => (last =? "..")%string | [] => false end
      then normpath_loop slashes r (comp :: rev_new)
      else normpath_loop slashes r (tl rev_new)
  end.

Definition normpath (path : string) : string :=
  if (path =? "")%string then "."%string
  else
    let slashes := initial_slashes path in
    let comps := normpath_loop slashes (split path) [] in
    let path' := String.concat "/" comps in
    let path'' := (String.concat "" (repeat "/"%string slashes) ++ path')%string in
    if (path'' =? "")%string then "."%string else path''.

Section WithCwd.
Variable cwd : string.

Definition abspath (path : string) : string :=
  normpath (if isabs path then path else join cwd path).

Definition nonempty (x : string) : bool := negb (x =? "")%string.

Fixpoint commonprefix_len (a b : list string) : nat :=
  match a, b with
  | x :: a', y :: b' =>
      if (x =? y)%string then S (commonprefix_len a' b') else 0%nat
  | _, _ => 0%nat
  end.

(** [join] applied to all the items of a non-empty list *)
Definition join_all (l : list string) : string :=
  match l with
  | [] => ""%string
  | a :: p => fold_left join p a
  end.

(** [relpath(path, start)] *)
Definition relpath (path start : string) : result string :=
  if (path =? "")%string then Raise ValueError
  else
    let start_list := filter nonempty (split (abspath start)) in
    let path_list := filter nonempty (split (abspath path)) in
    let i := commonprefix_len start_list path_list in
    let rel_list :=
      (repeat ".."%string (List.length start_list - i)
         ++ skipn i path_list)%list in
    match rel_list with
    | [] => Ok "."%string
    | _ => Ok (join_all rel_list)
    end.
End WithCwd.

End posixpath.

(** ** The file system *)

(** A file-system tree.  A directory keeps its entries in listing order. *)
#[warnings="-register-all"] Inductive node : Type :=
| File (content : list byte)
| Dir (entries : list (string * node))
| Symlink (target : string)
| Special.

Module FS.

Fixpoint assoc (name : string) (es : list (string * node)) : option node :=
  match es with
  | [] => None
  | (k, v) :: r => if (k =? name)%string then Some v else assoc name r
  end.

(** The node at a path given by its components from the root. *)
Fixpoint get (n : node) (p : list string) : option node :=
  match p with
  | [] => Some n
  | c :: p' =>
      match n with
      | Dir es => match assoc c es with
                  | Some child => get child p'
                  | None => None
                  end
      | _ => None
      end
  end.

(** Replace the node at a path. *)
Fixpoint put (n : node) (p : list string) (new : node) : node :=
  match p with
  | [] => new
  | c :: p' =>
      match n with
      | Dir es =>
          Dir (map (fun kv => if (fst kv =? c)%string
                              then (fst kv, put (snd kv) p' new) else kv) es)
      | _ => n
      end
  end.

(** The non-empty components of a path string. *)
Definition items (path : string) : list string :=
  filter posixpath.nonempty (posixpath.split path).

Definition max_links : nat := 32.

(** Path lookup: from the directory [cur] walk the components [todo],
    following at most [links] symbolic links (the last component's link
    only when [follow] is set).  The result is the path of the node found,
    free of links, dots and double dots. *)
Fixpoint namei (links : nat) (root : node) (follow : bool)
    (cur todo : list string) {struct links} : option (list string) :=
  (fix go (cur todo : list string) {struct todo} : option (list string) :=
     match todo with
     | [] => Some cur
     | c :: rest =>
         match get root cur with
         | Some (Dir es) =>
             if (c =? ".")%string then go cur rest
             else if (c =? "..")%string then go (removelast cur) rest
             else
               match assoc c es with
               | None => None
               | Some (Symlink t) =>
                   if follow || negb (Nat.eqb (List.length rest) 0) then
                     match links with
                     | O => None
                     | S l =>
                         namei l root follow
                           (if posixpath.isabs t then [] else cur)
                           (items t ++ rest)%list
                     end
                   else go (cur ++ [c])%list rest
               | Some _ => go (cur ++ [c])%list rest
               end
         | _ => None
         end
     end) cur todo.

Section WithCwd.
Variable cwd : string.

Definition start (path : string) : list string :=
  if posixpath.isabs path then [] else items cwd.

(** [os.stat]: the node a path leads to, links followed.  The empty path
    leads nowhere ([ENOENT]): it is not the working directory. *)
Definition stat (root : node) (path : string) : option node :=
  if (path =? "")%string then None
  else
    match namei max_links root true (start path) (items path) with
    | Some p => get root p
    | None => None
    end.

(** [os.lstat]: the node itself, a final link not followed. *)
Definition lstat (root : node) (path : string) : option node :=
  if (path =? "")%string then None
  else
    match namei max_links root false (start path) (items path) with
    | Some p => get root p
    | None => None
    end.

(** [os.path.isfile]: an existing regular file, links followed. *)
Definition isfile (root : node) (path : string) : bool :=
  match stat root path with Some (File _) => true | _ => false end.

(** [os.path.isdir]: an existing directory, links followed. *)
Definition isdir (root : node) (path : string) : bool :=
  match stat root path with Some (Dir _) => true | _ => false end.

(** [os.path.islink] *)
Definition islink (root : node) (path : string) : bool :=
  match lstat root path with Some (Symlink _) => true | _ => false end.

(** [os.listdir] *)
Definition listdir (root : node) (path : string) : result (list string) :=
  match stat root path with
  | Some (Dir es) => Ok (map fst es)
  | Some _ => Raise (OSError ENOTDIR path)
  | None => Raise (OSError ENOENT path)
  end.

(** The bytes [open(path, 'rb')] gives access to. *)
Definition open_rb (root : node) (path : string) : result (list byte) :=
  match stat root path with
  | Some (File content) => Ok content
  | Some (Dir _) => Raise (IOError EISDIR path)
  | Some _ => Raise (IOError EACCES path)
  | None => Raise (IOError ENOENT path)
  end.

(** [os.mkdir]: the parent must exist, the name must be free. *)
Definition mkdir (root : node) (path : string) : result node :=
  match rev (items path) with
  | [] => Raise (OSError (if posixpath.isabs path then EEXIST else ENOENT) path)
  | name :: rev_parent =>
      match namei max_links root true (start path) (rev rev_parent) with
      | None => Raise (OSError ENOENT path)
      | Some dir =>
          match get root dir with
          | Some (Dir es) =>
              if (name =? ".")%string || (name =? "..")%string then
                Raise (OSError EEXIST path)
              else
                match assoc name es with
                | Some _ => Raise (OSError EEXIST path)
                | None => Ok (put root dir (Dir (es ++ [(name, Dir [])])))
                end
          | _ => Raise (OSError ENOTDIR path)
          end
      end
  end.

(** [open(path, 'w')]: create the file, or empty an existing one. *)
Definition open_w (root : node) (path : string) : result node :=
  match rev (items path) with
  | [] => Raise (IOError (if (path =? "")%string then ENOENT else EISDIR) path)
  | name :: rev_parent =>
      match namei max_links root true (start path) (rev rev_parent) with
      | None => Raise (IOError ENOENT path)
      | Some dir =>
          match get root dir with
          | Some (Dir es) =>
              match assoc name es with
              | Some (File _) => Ok (put root (dir ++ [name]) (File []))
              | Some (Dir _) => Raise (IOError EISDIR path)
              | Some _ => Raise (IOError EACCES path)
              | None =>
                  if (name =? ".")%string || (name =? "..")%string then
                    Raise (IOError EISDIR path)
                  else Ok (put root dir (Dir (es ++ [(name, File [])])))
              end
          | _ => Raise (IOError ENOTDIR path)
          end
      end
  end.
End WithCwd.

End FS.

(** ** The process and its world *)

(** What the process does to its surroundings, in order. *)
Inductive event : Type :=
| EvDitto (source target : string)   (* [ditto source target] was spawned *)
| EvMkdir (path : string)            (* [os.mkdir(path)] was called *)
| EvOpen (path : string)             (* [open(path, 'rb')] was called *)
| EvCreate (path : string).          (* [open(path, 'w')] was called *)

(** How a [ditto] run ends: with an exit status and the file system it
    leaves behind, or not at all when the command cannot be spawned. *)
Inductive ditto_outcome : Type :=
| Exited (status : Z) (fs' : node)
| NotSpawned.

Record World : Type := mkWorld {
  fs : node;                       (* the file system, from its root *)
  stdin : list string;             (* the lines the operator will type *)
  stdout : list string;            (* what was written to the console *)
  logfile : option (list string);  (* what was written to the log, once open *)
  events : list event
}.

Definition set_fs (f : node) (w : World) : World :=
  mkWorld f (stdin w) (stdout w) (logfile w) (events w).

Definition set_stdin (l : list string) (w : World) : World :=
  mkWorld (fs w) l (stdout w) (logfile w) (events w).

Definition record (e : event) (w : World) : World :=
  mkWorld (fs w) (stdin w) (stdout w) (logfile w) (events w ++ [e]).

(** Computations of the process: a world goes in, a result or an exception
    comes out together with the world as it then is. *)
Definition M (A : Type) : Type := World -> result A * World.

Definition ret {A} (a : A) : M A := fun w => (Ok a, w).

Definition raise {A} (e : exn) : M A := fun w => (Raise e, w).

Definition bind {A B} (m : M A) (k : A -> M B) : M B :=
  fun w =>
    match m w with
    | (Ok a, w') => k a w'
    | (Raise e, w') => (Raise e, w')
    end.

Definition lift {A} (r : result A) : M A := fun w => (r, w).

Declare Scope py_scope.
Delimit Scope py_scope with py.
Notation "x <- m ;; k" := (bind m (fun x => k))
  (at level 61, m at next level, right associativity) : py_scope.
Notation "m ;; k" := (bind m (fun _ => k))
  (at level 61, right associativity) : py_scope.
Local Open Scope py_scope.

Definition NL : string := String "010"%char EmptyString.

Definition str_of_Z (z : Z) : string := NilZero.string_of_int (Z.to_int z).

Definition lower_ascii (c : ascii) : ascii :=
  let n := nat_of_ascii c in
  if (Nat.leb 65 n && Nat.leb n 90)%bool then ascii_of_nat (n + 32) else c.

(** [s.lower()] *)
Fixpoint lower (s : string) : string :=
  match s with
  | EmptyString => EmptyString
  | String c r => String (lower_ascii c) (lower r)
  end.

(** [sys.stdout.write(text)]: to the console and, once the [tee] object is
    installed, to the log file as well. *)
Definition sys_stdout_write (text : string) : M unit :=
  fun w =>
    (Ok tt,
     mkWorld (fs w) (stdin w) (stdout w ++ [text])
       (match logfile w with Some l => Some (l ++ [text]) | None => None end)
       (events w)).

(** [print(line)] with the arguments already joined by spaces. *)
Definition print (line : string) : M unit :=
  sys_stdout_write (line ++ NL).

(** ** The program *)

Section Program.

Variable cwd : string.       (* [os.getcwd()], an absolute path *)
Variable asctime : string.   (* [time.asctime()] of the run *)
Variable ditto : node -> string -> string -> ditto_outcome.

(** [query_yes_no(question)] on the lines still to be read: every round
    of its loop takes one line. *)
Fixpoint query_yes_no_on (question : string) (lines : list string)
    (w : World) : result pyval * World :=
  let w1 := snd (sys_stdout_write (question ++ " ") w) in
  match lines with
  | [] => (Raise EOFError, w1)
  | line :: rest =>
      let w2 := set_stdin rest w1 in
      match lower line with
      | EmptyString => (Raise IndexError, w2)
      | String c _ =>
          let response := String c EmptyString in
          if (response =? "y")%string || (response =? "n")%string
          then (Ok (VStr response), w2)
          else query_yes_no_on question rest
                 (snd (print "Please respond y or n" w2))
      end
  end.

Definition query_yes_no (question : string) : M pyval :=
  fun w => query_yes_no_on question (stdin w) w.

(** [f.read(md5.block_size*128)] is called until it returns [b'']. *)
Definition chunk_size : nat := MD5.block_size * 128.

Function read_loop (md5 : MD5.t) (rest : list byte)
    {measure List.length rest} : MD5.t :=
  match firstn chunk_size rest with
  | [] => md5
  | b :: bs =>
      read_loop (MD5.update md5 (map byte_val (b :: bs)))
                (skipn chunk_size rest)
  end.
Proof.
  intros md5 rest b bs e.
  destruct rest as [|x rest]; [discriminate e|].
  rewrite length_skipn. simpl. lia.
Defined.

Definition checksum_md5 (filename : string) : M string :=
  fun w =>
    let w1 := record (EvOpen filename) w in
    match FS.open_rb cwd (fs w) filename with
    | Raise e => (Raise e, w1)
    | Ok content =>
        let md5 := read_loop MD5.new content in
        (Ok (hexlify (MD5.digest md5)), w1)
    end.

(** [subprocess.check_call(["ditto", source, target])] *)
Definition check_call_ditto (source target : string) : M unit :=
  fun w =>
    let w1 := record (EvDitto source target) w in
    match ditto (fs w) source target with
    | Exited status fs' =>
        if status =? 0 then (Ok tt, set_fs fs' w1)
        else (Raise (CalledProcessError status), set_fs fs' w1)
    | NotSpawned => (Raise (OSError ENOENT "ditto"), w1)
    end.

Definition copy_file (source target : string) : M bool :=
  sys_stdout_write ("Copying: " ++ source ++ " to " ++ target ++ ". ") ;;
  fun w =>
    match check_call_ditto source target w with
    | (Raise (CalledProcessError _), w1) =>
        (print "FAILED - OS copy failed" ;; ret false) w1
    | (Raise e, w1) => (Raise e, w1)
    | (Ok _, w1) =>
        (src_md5 <- checksum_md5 source ;;
         tgt_md5 <- checksum_md5 target ;;
         if (src_md5 =? tgt_md5)%string then
           print ("OK. Checksum: " ++ src_md5) ;; ret true
         else
           print ("FAILED - Checksum mismatch: Source: " ++ src_md5
                  ++ ", Target: " ++ tgt_md5) ;;
           ret false) w1
    end.

Definition os_listdir (path : string) : M (list string) :=
  fun w => (FS.listdir cwd (fs w) path, w).

Definition os_path_isfile (path : string) : M bool :=
  fun w => (Ok (FS.isfile cwd (fs w) path), w).

Definition os_mkdir (path : string) : M unit :=
  fun w =>
    let w1 := record (EvMkdir path) w in
    match FS.mkdir cwd (fs w) path with
    | Ok fs' => (Ok tt, set_fs fs' w1)
    | Raise e => (Raise e, w1)
    end.

(** The [for file_name in os.listdir(source)] loop of [copy_dir]. *)
Fixpoint copy_dir_loop (source target : string) (names : list string)
    (file_count error_count : Z) : M (Z * Z) :=
  match names with
  | [] => ret (file_count, error_count)
  | file_name :: rest =>
      is_file <- os_path_isfile (posixpath.join source file_name) ;;
      if is_file : bool then
        let file_count := file_count + 1 in
        ok <- copy_file (posixpath.join source file_name)
                        (posixpath.join target file_name) ;;
        if py_eq (VBool ok) (VBool false) then
          copy_dir_loop source target rest file_count (error_count + 1)
        else copy_dir_loop source target rest file_count error_count
      else copy_dir_loop source target rest file_count error_count
  end.

Definition copy_dir (source target : string) : M (Z * Z) :=
  print ("Copying " ++ source ++ " to " ++ target) ;;
  names <- os_listdir source ;;
  counts <- copy_dir_loop source target names 0 0 ;;
  let '(file_count, error_count) := counts in
  (if file_count =? 0 then
     print ("Creating empty directory: " ++ target) ;;
     os_mkdir target
   else ret tt) ;;
  ret (file_count, error_count).

(** One item of [os.walk]: [(dirpath, dirnames, filenames)]. *)
Definition walk_item : Type := (string * list string * list string)%type.

(** [os.path.isdir(join(top, name))] for a directory entry; a link is
    followed through the file system. *)
Definition entry_isdir (root : node) (top : string) (e : string * node)
  : bool :=
  match snd e with
  | Dir _ => true
  | Symlink _ => FS.isdir cwd root (posixpath.join top (fst e))
  | _ => false
  end.

(** [os.walk(top)] from the directory node found at [top]: the directory
    itself first, then the walk of each sub-directory that is not a
    link, in listing order. *)
Fixpoint walk_node (root : node) (top : string) (n : node)
  : list walk_item :=
  match n with
  | Dir es =>
      let dirs := map fst (filter (entry_isdir root top) es) in
      let nondirs :=
        map fst (filter (fun e => negb (entry_isdir root top e)) es) in
      (top, dirs, nondirs)
        :: (fix sub (l : list (string * node)) : list walk_item :=
              match l with
              | [] => []
              | e :: r =>
                  match snd e with
                  | Dir _ =>
                      (walk_node root (posixpath.join top (fst e)) (snd e)
                         ++ sub r)%list
                  | _ => sub r
                  end
              end) es
  | _ => []
  end.

(** [[directory for directory in os.walk(source)]]: nothing is yielded
    when [source] cannot be listed. *)
Definition os_walk (source : string) : M (list walk_item) :=
  fun w =>
    match FS.stat cwd (fs w) source with
    | Some n => (Ok (walk_node (fs w) source n), w)
    | None => (Ok [], w)
    end.

(** [[(abspath(d[0]), len(d[2])) for d in tree]] *)
Definition source_list_of (tree : list walk_item) : list (string * Z) :=
  map (fun d : walk_item =>
         (posixpath.abspath cwd (fst (fst d)),
          Z.of_nat (List.length (snd d)))) tree.

(** [[(d[0], join(target_root, relpath(d[0], source_root)))
     for d in source_list]] *)
Fixpoint copy_list_of (target_root source_root : string)
    (source_list : list (string * Z)) : result (list (string * string)) :=
  match source_list with
  | [] => Ok []
  | directory :: r =>
      match posixpath.relpath cwd (fst directory) source_root with
      | Raise e => Raise e
      | Ok rel =>
          match copy_list_of target_root source_root r with
          | Raise e => Raise e
          | Ok l =>
              Ok ((fst directory, posixpath.join target_root rel) :: l)
          end
      end
  end.

(** The preview loop over [source_list]; returns the total file count. *)
Fixpoint print_source_list (source_list : list (string * Z))
    (file_count : Z) : M Z :=
  match source_list with
  | [] => ret file_count
  | directory :: r =>
      print (fst directory ++ " " ++ str_of_Z (snd directory) ++ " files") ;;
      print_source_list r (file_count + snd directory)
  end.

Fixpoint print_copy_list (copy_list : list (string * string)) : M unit :=
  match copy_list with
  | [] => ret tt
  | entry :: r =>
      print ("Will copy " ++ fst entry ++ " to " ++ snd entry) ;;
      print_copy_list r
  end.

(** The [for (source, target) in copy_list] loop of [do_copy]. *)
Fixpoint copy_loop (copy_list : list (string * string))
    (file_count error_count : Z) : M (Z * Z) :=
  match copy_list with
  | [] => ret (file_count, error_count)
  | (source, target) :: r =>
      counts <- copy_dir source target ;;
      let '(files, errors) := counts in
      print ("Directory copied. " ++ str_of_Z files ++ " files, "
             ++ str_of_Z errors ++ " errors.") ;;
      print "" ;;
      copy_loop r (file_count + files) (error_count + errors)
  end.

Definition do_copy (source target : string) : M (Z * Z) :=
  tree <- os_walk source ;;
  match tree with
  | [] => raise IndexError
  | first :: _ =>
      let source_root := posixpath.abspath cwd (fst (fst first)) in
      let source_list := source_list_of tree in
      print ("Source directory: " ++ source_root) ;;
      print ("Found " ++ str_of_Z (Z.of_nat (List.length source_list))
             ++ " directories...") ;;
      file_count <- print_source_list source_list 0 ;;
      print ("Total " ++ str_of_Z file_count ++ " files.") ;;
      answer <- query_yes_no "Continue? [y|n]" ;;
      if py_eq answer (VBool false) then ret (0, 0)
      else
        let target_root := posixpath.abspath cwd target in
        copy_list <- lift (copy_list_of target_root source_root source_list) ;;
        print ("Target directory: " ++ target_root) ;;
        print_copy_list copy_list ;;
        answer <- query_yes_no "Continue? [y|n]" ;;
        if py_eq answer (VBool false) then ret (0, 0)
        else copy_loop copy_list 0 0
  end.

(** [open(logfilename, 'w')] followed by [sys.stdout = tee(...)]. *)
Definition open_log (logfilename : string) : M unit :=
  fun w =>
    let w1 := record (EvCreate logfilename) w in
    match FS.open_w cwd (fs w) logfilename with
    | Raise e => (Raise e, w1)
    | Ok fs' =>
        (Ok tt, mkWorld fs' (stdin w1) (stdout w1) (Some []) (events w1))
    end.

Definition do_main (argv : list string) : M pyval :=
  print ("SPPmigrate: " ++ asctime) ;;
  if negb (Nat.eqb (List.length argv) 3) then
    print "Usage is: SPPmigrate <source-directory> <target-directory>" ;;
    ret (VInt 1)
  else
    open_log ("SPPmigrate_" ++ asctime ++ ".log") ;;
    counts <- do_copy (nth 1 argv ""%string) (nth 2 argv ""%string) ;;
    let '(files, errors) := counts in
    print ("All done. " ++ str_of_Z files ++ " files copied. "
           ++ str_of_Z errors ++ " errors.") ;;
    ret VNone.

(** The [__main__] block: [do_main()] is called and its value dropped.
    The exit status of the interpreter is 0 when the script runs to its
    end and 1 when an exception is not caught. *)
Definition main (argv : list string) (w : World) : Z * World :=
  match do_main argv w with
  | (Ok _, w') => (0, w')
  | (Raise _, w') => (1, w')
  end.

End Program.

(** ** A reference [ditto] and sample worlds *)

(** A path's components with dots and double dots resolved by name. *)
Fixpoint lexical (todo rev_done : list string) : list string :=
  match todo with
  | [] => rev rev_done
  | c :: r =>
      if (c =? ".")%string then lexical r rev_done
      else if (c =? "..")%string then lexical r (tl rev_done)
      else lexical r (c :: rev_done)
  end.

(** A fresh chain of directories ending in a file. *)
Fixpoint fresh (p : list string) (content : list byte) : node :=
  match p with
  | [] => File content
  | c :: r => Dir [(c, fresh r content)]
  end.

(** Write a file at a path, creating the directories that are missing;
    fails on a path through a file and on a directory in the file's place. *)
Fixpoint write_at (n : node) (p : list string) (content : list byte)
  : option node :=
  match p with
  | [] => match n with
          | File _ => Some (File content)
          | _ => None
          end
  | c :: r =>
      match n with
      | Dir es =>
          match FS.assoc c es with
          | Some child =>
              match write_at child r content with
              | Some child' => Some (FS.put n [c] child')
              | None => None
              end
          | None => Some (Dir (es ++ [(c, fresh r content)]))
          end
      | _ => None
      end
  end.

(** The last component of a path. *)
Definition basename (path : string) : string := last (FS.items path) ""%string.

(** A [ditto] that copies one file: it reads the source, creates the
    target's directories as needed and writes the target, inside the target
    when that is an existing directory; it exits with 0, and with 1 when the
    source cannot be read or the target not written. *)
Definition ditto_cp (cwd : string) (root : node) (source target : string)
  : ditto_outcome :=
  match FS.open_rb cwd root source with
  | Raise _ => Exited 1 root
  | Ok content =>
      let dest := lexical (FS.start cwd target ++ FS.items target) [] in
      let dest := match FS.get root dest with
                  | Some (Dir _) => (dest ++ [basename source])%list
                  | _ => dest
                  end in
      match write_at root dest content with
      | Some root' => Exited 0 root'
      | None => Exited 1 root
      end
  end.

(** The file system a [ditto] run leaves, [root] when it did not run. *)
Definition left_by (o : ditto_outcome) (root : node) : node :=
  match o with
  | Exited _ root' => root'
  | NotSpawned => root
  end.

Definition world_of (root : node) (typed : list string) : World :=
  mkWorld root typed [] None [].

(** [/root/{a.txt, sub/{b.txt}}] *)
Definition fs_small : node :=
  Dir [("root", Dir [("a.txt", File (text "alpha"));
                     ("sub", Dir [("b.txt", File (text "beta"))])])]%string.

(** A tree of depth three with siblings at two levels. *)
Definition fs_deep : node :=
  Dir [("s", Dir [("f0", File (text "0"));
                  ("a", Dir [("f1", File (text "1"));
                             ("b", Dir [("c", Dir [("f3", File (text "3"))])]);
                             ("d", Dir [])]);
                  ("e", Dir [("f2", File (text "2"))])])]%string.

(** A source with an empty directory that the target already has. *)
Definition fs_conflict : node :=
  Dir [("src", Dir [("a.txt", File (text "alpha"));
                    ("empty", Dir []);
                    ("later", Dir [("b.txt", File (text "beta"))])]);
       ("dst", Dir [("empty", Dir [])])]%string.


(** A directory with one entry of each kind. *)
Definition fs_kinds : node :=
  Dir [("src", Dir [("a.txt", File (text "alpha"));
                    ("link", Symlink "a.txt");
                    ("sub", Dir []);
                    ("pipe", Special);
                    ("gone", Symlink "nowhere")])]%string.

(** A source tree whose target root is a regular file. *)
Definition fs_blocked : node :=
  Dir [("root", Dir [("a.txt", File (text "alpha"));
                     ("sub", Dir [("b.txt", File (text "beta"))])]);
       ("T", File (text "in the way"))]%string.

(** A [ditto] that exits with 0 and leaves an empty file at the target. *)
Definition ditto_truncating (cwd : string) (root : node)
    (source target : string) : ditto_outcome :=
  match write_at root (lexical (FS.start cwd target ++ FS.items target) []) []
  with
  | Some root' => Exited 0 root'
  | None => Exited 1 root
  end.

(** The listing of [/src] in [fs_kinds]. *)
Definition kinds_names : list string :=
  ["a.txt"; "link"; "sub"; "pipe"; "gone"]%string.

(** ** Vocabulary of the statements *)

Definition is_lower_hex (c : ascii) : Prop := In c hex_digits.

(** The lines the program prints. *)
Definition copying_line (source target : string) : string :=
  ("Copying: " ++ source ++ " to " ++ target ++ ". ")%string.

Definition copying_dir_line (source target : string) : string :=
  ("Copying " ++ source ++ " to " ++ target)%string.

Definition creating_line (target : string) : string :=
  ("Creating empty directory: " ++ target)%string.

Definition copied_line (files errors : Z) : string :=
  ("Directory copied. " ++ str_of_Z files ++ " files, "
   ++ str_of_Z errors ++ " errors.")%string.

Definition banner_line (asctime : string) : string :=
  ("SPPmigrate: " ++ asctime)%string.

Definition usage_line : string :=
  "Usage is: SPPmigrate <source-directory> <target-directory>"%string.

Definition total (l : list Z) : Z := fold_right Z.add 0 l.

(** The directories of a tree: the node itself and those below it, links
    not followed. *)
Fixpoint count_dirs (n : node) : nat :=
  match n with
  | Dir es =>
      S ((fix below (l : list (string * node)) : nat :=
            match l with
            | [] => 0%nat
            | e :: r => (count_dirs (snd e) + below r)%nat
            end) es)
  | _ => 0%nat
  end.

Definition is_ditto (e : event) : bool :=
  match e with EvDitto _ _ => true | _ => false end.

(** The [ditto] runs among the events: the file transfers attempted. *)
Definition dittos (l : list event) : list event := filter is_ditto l.

(** ** Vocabulary of the further statements *)

(** The disk is as it was: nothing was copied, created or opened. *)
Definition same_disk (w w' : World) : Prop :=
  fs w' = fs w /\ events w' = events w.

(** From [w] to [w'] the process has only written text: the added texts
    went to the console and, when the log is open, to the log as well, and
    each of them satisfies [ok]. *)
Definition emits (ok : string -> Prop) (w w' : World) : Prop :=
  exists added : list string,
    stdout w' = (stdout w ++ added)%list
    /\ logfile w' = option_map (fun l => (l ++ added)%list) (logfile w)
    /\ Forall ok added.

(** A computation keeps a relation between the world it starts in and the
    world it leaves, whatever its outcome. *)
Definition keeps {A} (P : World -> World -> Prop) (m : M A) : Prop :=
  forall w, P w (snd (m w)).

(** A line [query_yes_no] takes as the answer [c], and a line it refuses. *)
Definition accepted (line : string) (c : ascii) : Prop :=
  exists s, lower line = String c s /\ (c = "y"%char \/ c = "n"%char).

Definition rejected (line : string) : Prop :=
  exists c s, lower line = String c s /\ c <> "y"%char /\ c <> "n"%char.

(** What [query_yes_no] writes while it refuses the lines [skipped] and then
    asks once more. *)
Definition prompts (question : string) (skipped : list string) : list string :=
  (flat_map (fun _ : string =>
               [(question ++ " ")%string;
                ("Please respond y or n" ++ NL)%string]) skipped
     ++ [(question ++ " ")%string])%list.

(** A computation that does not look at the lines still to be read. *)
Definition stdin_blind {A} (m : M A) : Prop :=
  forall (l : list string) (w : World),
    m (set_stdin l w) = (fst (m w), set_stdin l (snd (m w))).

Definition io_or_os (e : exn) : Prop :=
  match e with
  | IOError _ _ | OSError _ _ => True
  | _ => False
  end.

(** A text written by [print] that reports a failed file: it starts with
    [FAILED]. *)
Definition is_failed_line (line : string) : bool := String.prefix "FAILED" line.

(** The reports of a failed file among the texts written. *)
Definition failed_lines (out : list string) : list string :=
  filter is_failed_line out.

Definition is_mkdir (e : event) : bool :=
  match e with EvMkdir _ => true | _ => false end.

Definition mkdirs (l : list event) : list event := filter is_mkdir l.

(** The events a transfer of the entries [names] of [source] to [target]
    may leave: [ditto] from an entry to the same name under the target, and
    the two files of a transfer opened for their checksums. *)
Definition entry_event (source target : string) (names : list string)
    (e : event) : Prop :=
  exists name, In name names
    /\ (e = EvDitto (posixpath.join source name) (posixpath.join target name)
        \/ e = EvOpen (posixpath.join source name)
        \/ e = EvOpen (posixpath.join target name)).

(** From [w] to [w'] the process has left the events [new] and written the
    texts [added], to the console and to the log when it is open, and has
    read no input. *)
Definition wrote (new : list event) (added : list string) (w w' : World)
  : Prop :=
  events w' = (events w ++ new)%list
  /\ stdout w' = (stdout w ++ added)%list
  /\ logfile w' = option_map (fun l => (l ++ added)%list) (logfile w)
  /\ stdin w' = stdin w.

(** From [w] to [w'] the process has only written text that satisfies
    [ok], and perhaps read input. *)
Definition planned (ok : string -> Prop) (w w' : World) : Prop :=
  same_disk w w' /\ emits ok w w'.

(** A text that is not the report of a failed file, when the working
    directory is an absolute path as [os.getcwd()] gives it. *)
Definition plain_line (cwd : string) (line : string) : Prop :=
  posixpath.isabs cwd = true -> is_failed_line line = false.

Definition all_done_line (files errors : Z) : string :=
  ("All done. " ++ str_of_Z files ++ " files copied. "
   ++ str_of_Z errors ++ " errors.")%string.

Definition log_name (asctime : string) : string :=
  ("SPPmigrate_" ++ asctime ++ ".log")%string.

(** The lines of the preview of [do_copy]: one for each directory of the
    source list, and one for each pair of the copy list. *)
Definition source_lines (source_list : list (string * Z)) : list string :=
  map (fun d : string * Z =>
         ((fst d ++ " " ++ str_of_Z (snd d) ++ " files") ++ NL)%string)
      source_list.

Definition will_copy_line (entry : string * string) : string :=
  ("Will copy " ++ fst entry ++ " to " ++ snd entry)%string.

(** All that [do_copy] writes before its copy loop, when the operator's
    lines [skipped1] are refused at the first gate and [skipped2] at the
    second. *)
Definition preview (source_root target_root : string)
    (source_list : list (string * Z)) (copy_list : list (string * string))
    (skipped1 skipped2 : list string) : list string :=
  ([(("Source directory: " ++ source_root) ++ NL)%string;
    (("Found " ++ str_of_Z (Z.of_nat (List.length source_list))
      ++ " directories...") ++ NL)%string]
   ++ source_lines source_list
   ++ [(("Total " ++ str_of_Z (total (map snd source_list)) ++ " files.")
        ++ NL)%string]
   ++ prompts "Continue? [y|n]" skipped1
   ++ [(("Target directory: " ++ target_root) ++ NL)%string]
   ++ map (fun entry => (will_copy_line entry ++ NL)%string) copy_list
   ++ prompts "Continue? [y|n]" skipped2)%list.

(** The world once [texts] were written and the input read down to
    [rest], the disk untouched. *)
Definition after_planning (rest texts : list string) (w : World) : World :=
  mkWorld (fs w) rest (stdout w ++ texts)%list
    (option_map (fun l => (l ++ texts)%list) (logfile w)) (events w).


(** Two worlds that differ at most in the lines still to be read. *)
Definition same_but_stdin (w w' : World) : Prop :=
  fs w' = fs w /\ stdout w' = stdout w /\ logfile w' = logfile w
  /\ events w' = events w.

(** Two computations that do the same, the first on lines to be read [S]
    and the second on lines to be read [L]. *)
Definition alike {A} (S L : list string) (c c' : M A) : Prop :=
  forall W : World,
    stdin W = S ->
    fst (c W) = fst (c' (set_stdin L W))
    /\ same_but_stdin (snd (c W)) (snd (c' (set_stdin L W))).

(** ** The [tee] class *)

(** The file objects of a run: the console streams the interpreter starts
    with, and the files the program opens. *)
Inductive fileobj : Type :=
| ConsoleOut
| ConsoleErr
| Opened (name : string).

Definition fileobj_eqb (f g : fileobj) : bool :=
  match f, g with
  | ConsoleOut, ConsoleOut => true
  | ConsoleErr, ConsoleErr => true
  | Opened a, Opened b => String.eqb a b
  | _, _ => false
  end.

Record filestate : Type := mk_filestate {
  written : list string;   (* the texts written to the file, in order *)
  closed : bool
}.

(** The state of every file object. *)
Definition Files : Type := fileobj -> filestate.

Definition put_file (f : fileobj) (s : filestate) (fl : Files) : Files :=
  fun g => if fileobj_eqb g f then s else fl g.

(** [f.write(text)]: [ValueError] on a closed file. *)
Definition file_write (f : fileobj) (text : string) (fl : Files)
  : result unit * Files :=
  if closed (fl f) then (Raise ValueError, fl)
  else (Ok tt, put_file f (mk_filestate (written (fl f) ++ [text]) false) fl).

(** [f.flush()]: [ValueError] on a closed file. *)
Definition file_flush (f : fileobj) (fl : Files) : result unit * Files :=
  if closed (fl f) then (Raise ValueError, fl) else (Ok tt, fl).

(** [f.close()] *)
Definition file_close (f : fileobj) (fl : Files) : Files :=
  put_file f (mk_filestate (written (fl f)) true) fl.

Module tee.

(** [__init__(self, _fd1, _fd2)] *)
Record t : Type := init { fd1 : fileobj; fd2 : fileobj }.

(** What [sys.stdout] or [sys.stderr] is bound to: a file object, or a
    [tee] as after [sys.stdout = tee(stdout_save, logfile)]. *)
Inductive stream : Type :=
| ToFile (f : fileobj)
| ToTee (x : t).

(** [fd != stream], which compares the identity of the two objects: a file
    object is never a [tee]. *)
Definition differs (fd : fileobj) (s : stream) : bool :=
  match s with
  | ToFile g => negb (fileobj_eqb fd g)
  | ToTee _ => true
  end.

(** [__del__(self)] *)
Definition del (sys_stdout sys_stderr : stream) (self : t) (fl : Files)
  : Files :=
  let fl1 :=
    if differs (fd1 self) sys_stdout && differs (fd1 self) sys_stderr
    then file_close (fd1 self) fl else fl in
  if differs (fd2 self) sys_stdout && differs (fd2 self) sys_stderr
  then file_close (fd2 self) fl1 else fl1.

(** [write(self, text)] *)
Definition write (self : t) (text : string) (fl : Files)
  : result unit * Files :=
  match file_write (fd1 self) text fl with
  | (Ok _, fl1) => file_write (fd2 self) text fl1
  | (Raise e, fl1) => (Raise e, fl1)
  end.

(** [flush(self)] *)
Definition flush (self : t) (fl : Files) : result unit * Files :=
  match file_flush (fd1 self) fl with
  | (Ok _, fl1) => file_flush (fd2 self) fl1
  | (Raise e, fl1) => (Raise e, fl1)
  end.

(** One [write] after the other, as [print] does for its arguments. *)
Fixpoint write_all (self : t) (texts : list string) (fl : Files)
  : result unit * Files :=
  match texts with
  | [] => (Ok tt, fl)
  | text :: rest =>
      match write self text fl with
      | (Ok _, fl1) => write_all self rest fl1
      | (Raise e, fl1) => (Raise e, fl1)
      end
  end.

End tee.

(** The files at the start of [do_main]: nothing written, nothing closed. *)
Definition fresh_files : Files := fun _ => mk_filestate [] false.

(** The file objects as a world of the process shows them: the console
    holds what was written to it, and the log named [logname] is open and
    holds its text once [do_main] has opened it. *)
Definition files_of (logname : string) (w : World) : Files :=
  fun f =>
    match f with
    | ConsoleOut => mk_filestate (stdout w) false
    | ConsoleErr => mk_filestate [] false
    | Opened name =>
        if String.eqb name logname then
          match logfile w with
          | Some l => mk_filestate l false
          | None => mk_filestate [] true
          end
        else mk_filestate [] true
    end.

(** * Properties *)

(** ** Test vectors of RFC 1321 for the digest *)

Example md5_empty : md5_hex [] = "d41d8cd98f00b204e9800998ecf8427e"%string.
Proof. vm_compute. reflexivity. Qed.

Example md5_a :
  md5_hex (text "a") = "0cc175b9c0f1b6a831c399e269772661"%string.
Proof. vm_compute. reflexivity. Qed.

Example md5_abc :
  md5_hex (text "abc") = "900150983cd24fb0d6963f7d28e17f72"%string.
Proof. vm_compute. reflexivity. Qed.

Example md5_alphabet :
  md5_hex (text "abcdefghijklmnopqrstuvwxyz")
  = "c3fcd3d76192e4007dfb496cca67e13b"%string.
Proof. vm_compute. reflexivity. Qed.

Example md5_80_digits :
  md5_hex (text
    "12345678901234567890123456789012345678901234567890123456789012345678901234567890")
  = "57edf4a22be3c955ac49da2e2107b67a"%string.
Proof. vm_compute. reflexivity. Qed.

(** ** The checksum engine *)

Lemma hex_digit_lower (n : Z) : is_lower_hex (hex_digit n).
Proof.
  unfold is_lower_hex, hex_digit. apply nth_In.
  assert (0 <= n mod 16 < 16) by (apply Z.mod_pos_bound; lia).
  change (List.length hex_digits) with 16%nat. lia.
Qed.

Lemma hexlify_length (bs : list Z) :
  String.length (hexlify bs) = (2 * List.length bs)%nat.
Proof. induction bs as [|b r IH]; simpl; [reflexivity | rewrite IH; lia]. Qed.

Lemma hexlify_lower (bs : list Z) :
  Forall is_lower_hex (list_ascii_of_string (hexlify bs)).
Proof.
  induction bs as [|b r IH]; simpl; [constructor|].
  constructor; [apply hex_digit_lower|].
  constructor; [apply hex_digit_lower | exact IH].
Qed.

Lemma digest_length (o : MD5.t) : List.length (MD5.digest o) = MD5.digest_size.
Proof.
  unfold MD5.digest.
  destruct (MD5.chain (MD5.update o (MD5.padding o))) as [[[a b] c] d].
  reflexivity.
Qed.

Lemma update_app (o : MD5.t) (xs ys : list Z) :
  MD5.update o (xs ++ ys) = MD5.update (MD5.update o xs) ys.
Proof. unfold MD5.update. apply fold_left_app. Qed.

Lemma firstn_nil_inv {A} (n : nat) (l : list A) :
  (0 < n)%nat -> firstn n l = [] -> l = [].
Proof. destruct n; [lia|]. destruct l; [reflexivity | discriminate]. Qed.

(** The read loop feeds the hash object the whole content, whatever the
    hash object already holds. *)
Lemma read_loop_update (md5 : MD5.t) (rest : list byte) :
  read_loop md5 rest = MD5.update md5 (map byte_val rest).
Proof.
  functional induction (read_loop md5 rest) as [md5 rest E | md5 rest b bs E IH].
  - apply firstn_nil_inv in E; [subst; reflexivity | unfold chunk_size; simpl; lia].
  - rewrite IH, <- update_app, <- E, <- map_app, firstn_skipn. reflexivity.
Qed.

(** The chunks the read loop takes: each holds between 1 and [chunk_size] bytes,
    and together they are the content. *)
Lemma read_loop_chunks (md5 : MD5.t) (rest : list byte) :
  exists chunks : list (list byte),
    List.concat chunks = rest
    /\ Forall (fun c => (1 <= List.length c <= chunk_size)%nat) chunks
    /\ read_loop md5 rest
       = fold_left (fun o c => MD5.update o (map byte_val c)) chunks md5.
Proof.
  functional induction (read_loop md5 rest) as [md5 rest E | md5 rest b bs E IH].
  - apply firstn_nil_inv in E; [|unfold chunk_size; simpl; lia].
    exists []. subst. repeat split. constructor.
  - destruct IH as (chunks & Hcat & Hall & Hfold).
    exists ((b :: bs) :: chunks). repeat split.
    + change (List.concat ((b :: bs) :: chunks))
        with ((b :: bs) ++ List.concat chunks)%list.
      rewrite Hcat, <- E. apply firstn_skipn.
    + constructor; [|exact Hall]. split; [simpl; lia|].
      rewrite <- E. rewrite length_firstn. lia.
    + exact Hfold.
Qed.

Section FileTransfer.

Variable cwd : string.
Variable ditto : node -> string -> string -> ditto_outcome.

(** The world in which [ditto] is started by [copy_file]. *)
Lemma copy_file_unfold (source target : string) (w : World) :
  copy_file cwd ditto source target w
  = let w0 := snd (sys_stdout_write (copying_line source target) w) in
    match check_call_ditto ditto source target w0 with
    | (Raise (CalledProcessError _), w1) =>
        (Ok false, snd (print "FAILED - OS copy failed" w1))
    | (Raise e, w1) => (Raise e, w1)
    | (Ok _, w1) =>
        match checksum_md5 cwd source w1 with
        | (Raise e, w2) => (Raise e, w2)
        | (Ok src_md5, w2) =>
            match checksum_md5 cwd target w2 with
            | (Raise e, w3) => (Raise e, w3)
            | (Ok tgt_md5, w3) =>
                if (src_md5 =? tgt_md5)%string then
                  (Ok true, snd (print ("OK. Checksum: " ++ src_md5) w3))
                else
                  (Ok false,
                   snd (print ("FAILED - Checksum mismatch: Source: "
                               ++ src_md5 ++ ", Target: " ++ tgt_md5) w3))
            end
        end
    end.
Proof.
  unfold copy_file, bind at 1. cbn [sys_stdout_write snd fst].
  unfold copying_line.
  destruct (check_call_ditto _ _ _ _) as [[u|e] w1]; [|destruct e; reflexivity].
  unfold bind.
  destruct (checksum_md5 cwd source w1) as [[s|e] w2]; [|reflexivity].
  destruct (checksum_md5 cwd target w2) as [[t|e] w3]; [|reflexivity].
  destruct (s =? t)%string; reflexivity.
Qed.

Lemma checksum_md5_ok (filename : string) (w : World) (content : list byte) :
  FS.open_rb cwd (fs w) filename = Ok content ->
  checksum_md5 cwd filename w
  = (Ok (md5_hex content), record (EvOpen filename) w).
Proof.
  intros H. unfold checksum_md5. rewrite H.
  rewrite read_loop_update. reflexivity.
Qed.


(** The world [copy_file] leaves when [ditto] exits with a non-zero
    status. *)
Lemma copy_file_nonzero
    (source target : string) (w : World) (status : Z) (fs' : node) :
  ditto (fs w) source target = Exited status fs' ->
  status <> 0 ->
  copy_file cwd ditto source target w
  = (Ok false,
     mkWorld fs' (stdin w)
       (stdout w ++ [copying_line source target;
                     ("FAILED - OS copy failed" ++ NL)%string])%list
       (match logfile w with
        | Some l => Some (l ++ [copying_line source target;
                                ("FAILED - OS copy failed" ++ NL)%string])%list
        | None => None
        end)
       (events w ++ [EvDitto source target])%list).
Proof.
  intros Hditto Hstatus. rewrite copy_file_unfold.
  unfold check_call_ditto. cbn [sys_stdout_write snd fst fs].
  rewrite Hditto.
  destruct (status =? 0) eqn:E; [apply Z.eqb_eq in E; contradiction|].
  cbn. rewrite <- app_assoc. destruct (logfile w) as [l|]; [|reflexivity].
  rewrite <- app_assoc. reflexivity.
Qed.

(** C4.  When [ditto] exits with a non-zero status, [copy_file] returns
    [False] at once: it prints the failure line, and the only event of the
    call is the [ditto] run itself, so that no file is opened for a
    checksum. *)
Theorem copy_file_primitive_failure
    (source target : string) (w : World) (status : Z) (fs' : node)
    (Hditto : ditto (fs w) source target = Exited status fs')
    (Hstatus : status <> 0) :
  let r := copy_file cwd ditto source target w in
  fst r = Ok false
  /\ events (snd r) = (events w ++ [EvDitto source target])%list
  /\ (forall path, In (EvOpen path) (events (snd r)) ->
                   In (EvOpen path) (events w))
  /\ stdout (snd r)
     = (stdout w ++ [copying_line source target;
                     ("FAILED - OS copy failed" ++ NL)%string])%list
  /\ fs (snd r) = fs'.
Proof.
  intros r. subst r.
  rewrite (copy_file_nonzero source target w status fs' Hditto Hstatus).
  cbn [fst snd events stdout fs]. repeat split.
  intros path Hin. apply in_app_or in Hin as [Hin|[Hin|[]]];
    [exact Hin | discriminate Hin].
Qed.

(** C3.  When [ditto] exits with 0 and both files can be read afterwards,
    [copy_file] returns [True] exactly when the two digests are equal;
    when they differ it returns [False] and the line it prints carries the
    source digest and the target digest. *)
Theorem copy_file_checksum_verdict
    (source target : string) (w : World) (fs' : node)
    (src_content tgt_content : list byte)
    (Hditto : ditto (fs w) source target = Exited 0 fs')
    (Hsrc : FS.open_rb cwd fs' source = Ok src_content)
    (Htgt : FS.open_rb cwd fs' target = Ok tgt_content) :
  let r := copy_file cwd ditto source target w in
  let src_md5 := md5_hex src_content in
  let tgt_md5 := md5_hex tgt_content in
  (fst r = Ok true <-> src_md5 = tgt_md5)
  /\ (src_md5 = tgt_md5 ->
      stdout (snd r)
      = (stdout w ++ [copying_line source target;
                      ("OK. Checksum: " ++ src_md5 ++ NL)%string])%list)
  /\ (src_md5 <> tgt_md5 ->
      fst r = Ok false
      /\ stdout (snd r)
         = (stdout w ++ [copying_line source target;
                         (("FAILED - Checksum mismatch: Source: " ++ src_md5
                           ++ ", Target: " ++ tgt_md5) ++ NL)%string])%list)
  /\ events (snd r)
     = (events w ++ [EvDitto source target; EvOpen source; EvOpen target])%list.
Proof.
  intros r src_md5 tgt_md5. subst r. rewrite copy_file_unfold.
  unfold check_call_ditto. cbn [sys_stdout_write snd fst fs].
  rewrite Hditto. cbn [Z.eqb].
  rewrite (checksum_md5_ok source _ src_content) by exact Hsrc.
  rewrite (checksum_md5_ok target _ tgt_content) by exact Htgt.
  fold src_md5 tgt_md5.
  destruct (src_md5 =? tgt_md5)%string eqn:E.
  - apply String.eqb_eq in E. cbn [fst snd].
    split; [tauto|]. split; [|split; [tauto|]].
    + intros _. cbn. rewrite <- app_assoc. reflexivity.
    + cbn. rewrite <- !app_assoc. reflexivity.
  - apply String.eqb_neq in E. cbn [fst snd].
    split; [split; [discriminate | tauto]|].
    split; [tauto|]. split.
    + intros _. split; [reflexivity|]. cbn. rewrite <- !app_assoc.
      reflexivity.
    + cbn. rewrite <- !app_assoc. reflexivity.
Qed.

End FileTransfer.

Section DirectoryTransfer.

Variable cwd : string.
Variable ditto : node -> string -> string -> ditto_outcome.

Local Abbreviation join := posixpath.join.

Lemma copy_dir_loop_cons (source target name : string)
    (rest : list string) (fc ec : Z) (w : World) :
  copy_dir_loop cwd ditto source target (name :: rest) fc ec w
  = if FS.isfile cwd (fs w) (join source name) then
      match copy_file cwd ditto (join source name) (join target name) w with
      | (Ok ok, w1) =>
          copy_dir_loop cwd ditto source target rest (fc + 1)
            (if ok then ec else ec + 1) w1
      | (Raise e, w1) => (Raise e, w1)
      end
    else copy_dir_loop cwd ditto source target rest fc ec w.
Proof.
  cbn [copy_dir_loop]. unfold bind at 1, os_path_isfile.
  destruct (FS.isfile cwd (fs w) (join source name)); [|reflexivity].
  unfold bind at 1.
  destruct (copy_file _ _ _ _ w) as [[[|]|e] w1]; reflexivity.
Qed.

Lemma copy_dir_unfold (source target : string) (w : World) :
  copy_dir cwd ditto source target w
  = let w0 := snd (print (copying_dir_line source target) w) in
    match FS.listdir cwd (fs w) source with
    | Raise e => (Raise e, w0)
    | Ok names =>
        match copy_dir_loop cwd ditto source target names 0 0 w0 with
        | (Raise e, w1) => (Raise e, w1)
        | (Ok (file_count, error_count), w1) =>
            if file_count =? 0 then
              let w2 := record (EvMkdir target)
                          (snd (print (creating_line target) w1)) in
              match FS.mkdir cwd (fs w1) target with
              | Ok fs' => (Ok (file_count, error_count), set_fs fs' w2)
              | Raise e => (Raise e, w2)
              end
            else (Ok (file_count, error_count), w1)
        end
    end.
Proof.
  unfold copy_dir, bind at 1. cbn [print sys_stdout_write snd fst].
  unfold bind at 1, os_listdir. cbn [fs].
  unfold copying_dir_line.
  destruct (FS.listdir cwd (fs w) source) as [names|e]; [|reflexivity].
  unfold bind at 1.
  destruct (copy_dir_loop _ _ _ _ _ _ _ _) as [[[fc ec]|e] w1]; [|reflexivity].
  destruct (fc =? 0); [|reflexivity].
  unfold bind, os_mkdir, creating_line. cbn [print sys_stdout_write snd fst fs].
  destruct (FS.mkdir cwd (fs w1) target); reflexivity.
Qed.

Lemma copy_loop_cons (source target : string)
    (rest : list (string * string)) (fc ec : Z) (w : World) :
  copy_loop cwd ditto ((source, target) :: rest) fc ec w
  = match copy_dir cwd ditto source target w with
    | (Raise e, w1) => (Raise e, w1)
    | (Ok (files, errors), w1) =>
        copy_loop cwd ditto rest (fc + files) (ec + errors)
          (snd (print "" (snd (print (copied_line files errors) w1))))
    end.
Proof.
  cbn [copy_loop]. unfold bind at 1.
  destruct (copy_dir _ _ _ _ w) as [[[files errors]|e] w1]; reflexivity.
Qed.



(** Every round of the file loop adds one to the file count and at most
    one to the error count. *)
Lemma copy_dir_loop_counts (source target : string) (names : list string) :
  forall (fc ec : Z) (w : World) (fc' ec' : Z),
    fst (copy_dir_loop cwd ditto source target names fc ec w) = Ok (fc', ec') ->
    0 <= ec' - ec <= fc' - fc.
Proof.
  induction names as [|name rest IH]; intros fc ec w fc' ec' H.
  - cbn in H. injection H as <- <-. lia.
  - rewrite copy_dir_loop_cons in H.
    destruct (FS.isfile cwd (fs w) (join source name)).
    + destruct (copy_file _ _ _ _ w) as [[ok|e] w1]; [|discriminate H].
      apply IH in H. destruct ok; lia.
    + apply IH in H. exact H.
Qed.

Lemma copy_dir_counts (source target : string) (w : World) (fc ec : Z) :
  fst (copy_dir cwd ditto source target w) = Ok (fc, ec) -> 0 <= ec <= fc.
Proof.
  rewrite copy_dir_unfold. cbv zeta.
  destruct (FS.listdir cwd (fs w) source) as [names|e]; [|discriminate].
  destruct (copy_dir_loop _ _ _ _ _ _ _ _) as [[[f e]|e] w1] eqn:E;
    [|discriminate].
  assert (Hb : 0 <= e - 0 <= f - 0).
  { eapply copy_dir_loop_counts. rewrite E. reflexivity. }
  destruct (f =? 0).
  - destruct (FS.mkdir cwd (fs w1) target); [|discriminate].
    cbn. intros H. injection H as <- <-. lia.
  - cbn. intros H. injection H as <- <-. lia.
Qed.

Lemma copy_loop_counts (copy_list : list (string * string)) :
  forall (fc ec : Z) (w : World) (fc' ec' : Z),
    fst (copy_loop cwd ditto copy_list fc ec w) = Ok (fc', ec') ->
    0 <= ec' - ec <= fc' - fc.
Proof.
  induction copy_list as [|[source target] rest IH]; intros fc ec w fc' ec' H.
  - cbn in H. injection H as <- <-. lia.
  - rewrite copy_loop_cons in H.
    destruct (copy_dir _ _ _ _ w) as [[[files errors]|e] w1] eqn:E;
      [|discriminate H].
    apply IH in H.
    assert (0 <= errors <= files).
    { eapply copy_dir_counts. rewrite E. reflexivity. }
    lia.
Qed.

End DirectoryTransfer.

Section Planner.

Variable cwd : string.

Local Abbreviation join := posixpath.join.
Local Abbreviation abspath := (posixpath.abspath cwd).
Local Abbreviation relpath := (posixpath.relpath cwd).

Lemma walk_node_length (root : node) :
  forall (n : node) (top : string),
    List.length (walk_node cwd root top n) = count_dirs n.
Proof.
  fix IH 1. intros [content|es|t|] top; try reflexivity.
  cbn [walk_node count_dirs List.length]. f_equal.
  induction es as [|[name child] r IHr]; [reflexivity|].
  cbn [snd fst].
  pose proof (IH child (join top name)) as Hchild.
  destruct child as [content|es'|t|]; try exact IHr.
  rewrite length_app, Hchild, IHr. reflexivity.
Qed.

Lemma normpath_nonempty (path : string) : posixpath.normpath path <> ""%string.
Proof.
  unfold posixpath.normpath.
  destruct (path =? "")%string; [discriminate|].
  match goal with |- (if (?s =? "")%string then _ else _) <> _ =>
    destruct (s =? "")%string eqn:E; [discriminate | apply String.eqb_neq in E; exact E]
  end.
Qed.

Lemma abspath_nonempty (path : string) : abspath path <> ""%string.
Proof. apply normpath_nonempty. Qed.

Lemma relpath_ok (path start : string) :
  path <> ""%string -> exists rel, relpath path start = Ok rel.
Proof.
  intros H. unfold posixpath.relpath.
  apply String.eqb_neq in H. rewrite H.
  match goal with |- context [match ?l with [] => _ | _ :: _ => _ end] =>
    destruct l; eauto
  end.
Qed.

Lemma commonprefix_len_refl (l : list string) :
  posixpath.commonprefix_len l l = List.length l.
Proof.
  induction l as [|x l IH]; [reflexivity|].
  cbn. rewrite String.eqb_refl, IH. reflexivity.
Qed.

(** A directory is at [.] relative to itself. *)
Lemma relpath_self (path : string) :
  path <> ""%string -> relpath path path = Ok "."%string.
Proof.
  intros H. unfold posixpath.relpath.
  apply String.eqb_neq in H. rewrite H.
  rewrite commonprefix_len_refl, Nat.sub_diag, skipn_all. reflexivity.
Qed.

Lemma copy_list_of_spec (target_root source_root : string)
    (source_list : list (string * Z)) :
  Forall (fun d => fst d <> ""%string) source_list ->
  exists copy_list,
    copy_list_of cwd target_root source_root source_list = Ok copy_list
    /\ map fst copy_list = map fst source_list
    /\ Forall (fun pair =>
                 exists rel, relpath (fst pair) source_root = Ok rel
                             /\ snd pair = join target_root rel) copy_list.
Proof.
  induction source_list as [|d r IH]; intros Hne.
  - exists []. repeat split. constructor.
  - inversion Hne as [|? ? Hd Hr]; subst.
    destruct (IH Hr) as (l & Hl & Hfst & Hall).
    destruct (relpath_ok (fst d) source_root Hd) as (rel & Hrel).
    exists ((fst d, join target_root rel) :: l).
    cbn [copy_list_of]. rewrite Hrel, Hl. repeat split.
    + cbn. rewrite Hfst. reflexivity.
    + constructor; [exists rel; split; [exact Hrel | reflexivity] | exact Hall].
Qed.

(** C2.  The copy list built from the walk of a source tree has one pair
    for each directory of the tree, the root included and first; the
    source of a pair is the absolute path of the directory, and its target
    is the target root joined with the path of the source relative to the
    source root. *)
Theorem plan_one_pair_per_directory
    (root n : node) (source target : string) :
  let tree := walk_node cwd root source n in
  let source_root := abspath source in
  let target_root := abspath target in
  exists copy_list : list (string * string),
    copy_list_of cwd target_root source_root (source_list_of cwd tree)
    = Ok copy_list
    /\ List.length copy_list = count_dirs n
    /\ map fst copy_list = map (fun d : walk_item => abspath (fst (fst d))) tree
    /\ Forall (fun pair =>
                 exists rel, relpath (fst pair) source_root = Ok rel
                             /\ snd pair = join target_root rel) copy_list
    /\ (forall es, n = Dir es ->
          hd_error copy_list = Some (source_root, join target_root ".")).
Proof.
  intros tree source_root target_root.
  destruct (copy_list_of_spec target_root source_root (source_list_of cwd tree))
    as (copy_list & Hok & Hfst & Hall).
  { unfold source_list_of. apply Forall_forall. intros d Hin.
    apply in_map_iff in Hin as (x & <- & _). apply abspath_nonempty. }
  exists copy_list. split; [exact Hok|].
  assert (Hsrc : map fst copy_list
                 = map (fun d : walk_item => abspath (fst (fst d))) tree).
  { rewrite Hfst. unfold source_list_of. rewrite map_map. reflexivity. }
  split; [|split; [exact Hsrc|split; [exact Hall|]]].
  - rewrite <- (length_map fst), Hsrc, length_map.
    apply walk_node_length.
  - intros es ->. subst tree. cbn [walk_node map] in Hsrc.
    destruct copy_list as [|[s t] l]; [discriminate Hsrc|].
    cbn [map fst] in Hsrc. injection Hsrc as Hs _.
    apply Forall_inv in Hall. destruct Hall as (rel & Hrel & Ht).
    cbn [fst snd] in Hrel, Ht. subst s t.
    unfold source_root in Hrel at 1.
    rewrite relpath_self in Hrel by apply abspath_nonempty.
    injection Hrel as <-. reflexivity.
Qed.

End Planner.

Section Orchestrator.

Variable cwd : string.
Variable asctime : string.
Variable ditto : node -> string -> string -> ditto_outcome.

Local Abbreviation join := posixpath.join.

Lemma bind_ok_inv {A B} (m : M A) (k : A -> M B) (w : World) (b : B) :
  fst (bind m k w) = Ok b ->
  exists a w1, m w = (Ok a, w1) /\ fst (k a w1) = Ok b.
Proof.
  unfold bind. destruct (m w) as [[a|e] w1]; [eauto | discriminate].
Qed.

Lemma bind_raise_inv {A B} (m : M A) (k : A -> M B) (w : World) (e : exn) :
  fst (bind m k w) = Raise e ->
  fst (m w) = Raise e
  \/ exists a w1, m w = (Ok a, w1) /\ fst (k a w1) = Raise e.
Proof.
  unfold bind. destruct (m w) as [[a|e'] w1]; intros H;
    [right; eauto | left; cbn in *; congruence].
Qed.

(** The answer [query_yes_no] returns is the string [y] or the string
    [n]: it is never equal to [False]. *)
Lemma query_yes_no_on_answer (question : string) (lines : list string) :
  forall (w : World) (answer : pyval) (w' : World),
    query_yes_no_on question lines w = (Ok answer, w') ->
    answer = VStr "y" \/ answer = VStr "n".
Proof.
  induction lines as [|line rest IH]; intros w answer w' H;
    cbn [query_yes_no_on] in H.
  - discriminate H.
  - destruct (lower line) as [|c s]; [discriminate H|].
    destruct (String c "" =? "y")%string eqn:Ey.
    + apply String.eqb_eq in Ey. cbn [orb] in H. injection H as <- _.
      left. f_equal. exact Ey.
    + destruct (String c "" =? "n")%string eqn:En.
      * apply String.eqb_eq in En. cbn [orb] in H. injection H as <- _.
        right. f_equal. exact En.
      * cbn [orb] in H. eapply IH. exact H.
Qed.

Lemma query_yes_no_not_False (question : string) (w : World)
    (answer : pyval) (w' : World) :
  query_yes_no question w = (Ok answer, w') ->
  py_eq answer (VBool false) = false.
Proof.
  intros H. apply query_yes_no_on_answer in H as [-> | ->]; reflexivity.
Qed.

Lemma do_copy_counts (source target : string) (w : World) (F E : Z) :
  fst (do_copy cwd ditto source target w) = Ok (F, E) -> 0 <= E <= F.
Proof.
  unfold do_copy. intros H.
  apply bind_ok_inv in H as (tree & w1 & _ & H).
  destruct tree as [|first tree']; [discriminate H|].
  apply bind_ok_inv in H as (? & w2 & _ & H).
  apply bind_ok_inv in H as (? & w3 & _ & H).
  apply bind_ok_inv in H as (total & w4 & _ & H).
  apply bind_ok_inv in H as (? & w5 & _ & H).
  apply bind_ok_inv in H as (answer & w6 & Hq & H).
  rewrite (query_yes_no_not_False _ _ _ _ Hq) in H.
  apply bind_ok_inv in H as (copy_list & w7 & _ & H).
  apply bind_ok_inv in H as (? & w8 & _ & H).
  apply bind_ok_inv in H as (? & w9 & _ & H).
  apply bind_ok_inv in H as (answer' & w10 & Hq' & H).
  rewrite (query_yes_no_not_False _ _ _ _ Hq') in H.
  apply copy_loop_counts in H. lia.
Qed.

(** C10.  The pair [copy_dir] returns has [0 <= error_count <= file_count];
    the totals of the copy loop are the sums of the pairs returned for the
    directories of the plan; and the totals [do_copy] returns satisfy the
    same bounds. *)
Theorem counts_within_bounds (source target : string) (w : World) :
  (forall fc ec : Z,
      fst (copy_dir cwd ditto source target w) = Ok (fc, ec) ->
      0 <= ec <= fc)
  /\ (forall (copy_list : list (string * string)) (F E : Z),
        fst (copy_loop cwd ditto copy_list 0 0 w) = Ok (F, E) ->
        exists results : list (Z * Z),
          List.length results = List.length copy_list
          /\ Forall (fun r => 0 <= snd r <= fst r) results
          /\ F = total (map fst results) /\ E = total (map snd results))
  /\ (forall F E : Z,
        fst (do_copy cwd ditto source target w) = Ok (F, E) ->
        0 <= E <= F).
Proof.
  split; [intros fc ec; apply copy_dir_counts|].
  split; [|intros F E; apply do_copy_counts].
  intros copy_list.
  assert (G : forall (fc ec : Z) (w0 : World) (F E : Z),
    fst (copy_loop cwd ditto copy_list fc ec w0) = Ok (F, E) ->
    exists results : list (Z * Z),
      List.length results = List.length copy_list
      /\ Forall (fun r => 0 <= snd r <= fst r) results
      /\ F = fc + total (map fst results)
      /\ E = ec + total (map snd results)).
  { clear w. induction copy_list as [|[s t] rest IH]; intros fc ec w0 F E H.
    - cbn in H. injection H as <- <-. exists [].
      repeat split; [constructor | unfold total; cbn; lia ..].
    - rewrite copy_loop_cons in H.
      destruct (copy_dir cwd ditto s t w0) as [[[files errors]|e] w1] eqn:Ed;
        [|discriminate H].
      apply IH in H as (results & Hlen & Hall & HF & HE).
      exists ((files, errors) :: results). repeat split.
      + cbn. rewrite Hlen. reflexivity.
      + constructor; [|exact Hall]. cbn.
        eapply copy_dir_counts. rewrite Ed. reflexivity.
      + unfold total in *. cbn. lia.
      + unfold total in *. cbn. lia. }
  intros F E H. apply G in H as (results & Hlen & Hall & HF & HE).
  exists results. repeat split; [exact Hlen | exact Hall | lia | lia].
Qed.

End Orchestrator.

Section ErrorPaths.

Variable cwd : string.
Variable asctime : string.
Variable ditto : node -> string -> string -> ditto_outcome.

Local Abbreviation join := posixpath.join.

Lemma copy_dir_loop_no_files (source target : string) (names : list string) :
  forall (fc ec : Z) (w : World),
    (forall name, In name names ->
                  FS.isfile cwd (fs w) (join source name) = false) ->
    copy_dir_loop cwd ditto source target names fc ec w = (Ok (fc, ec), w).
Proof.
  induction names as [|name rest IH]; intros fc ec w Hnone; [reflexivity|].
  rewrite copy_dir_loop_cons, (Hnone name (or_introl eq_refl)).
  apply IH. intros n Hn. apply Hnone. right. exact Hn.
Qed.

(** An exception of [copy_dir] ends the loop of [do_copy] on the spot. *)
Lemma copy_loop_raise (source target : string) (w : World) (e : exn)
    (rest : list (string * string)) (fc ec : Z) :
  fst (copy_dir cwd ditto source target w) = Raise e ->
  copy_loop cwd ditto ((source, target) :: rest) fc ec w
  = (Raise e, snd (copy_dir cwd ditto source target w)).
Proof.
  intros H. rewrite copy_loop_cons.
  destruct (copy_dir cwd ditto source target w) as [[[f x]|e'] w1];
    [discriminate H|].
  cbn in H. injection H as ->. reflexivity.
Qed.

(** C5 (amended).  For a directory in which [os.path.isfile] holds of no
    entry, [copy_dir] calls [os.mkdir] on the target.  When the call
    succeeds the directory is there and [(0, 0)] is returned.  When the
    call fails, the exception leaves [copy_dir] and the loop of [do_copy]:
    the directories that follow in the plan are not processed. *)
Theorem empty_directory_mkdir
    (source target : string) (w : World) (names : list string)
    (Hlist : FS.listdir cwd (fs w) source = Ok names)
    (Hnone : forall name, In name names ->
               FS.isfile cwd (fs w) (join source name) = false) :
  let w' := record (EvMkdir target)
              (snd (print (creating_line target)
                 (snd (print (copying_dir_line source target) w)))) in
  match FS.mkdir cwd (fs w) target with
  | Ok fs' =>
      copy_dir cwd ditto source target w = (Ok (0, 0), set_fs fs' w')
  | Raise e =>
      copy_dir cwd ditto source target w = (Raise e, w')
      /\ forall (rest : list (string * string)) (fc ec : Z),
           copy_loop cwd ditto ((source, target) :: rest) fc ec w
           = (Raise e, w')
  end.
Proof.
  intros w'.
  assert (Hdir : copy_dir cwd ditto source target w
                 = match FS.mkdir cwd (fs w) target with
                   | Ok fs' => (Ok (0, 0), set_fs fs' w')
                   | Raise e => (Raise e, w')
                   end).
  { rewrite copy_dir_unfold. cbv zeta. rewrite Hlist.
    rewrite copy_dir_loop_no_files by exact Hnone.
    cbn [Z.eqb print sys_stdout_write snd fst fs].
    destruct (FS.mkdir cwd (fs w) target); reflexivity. }
  destruct (FS.mkdir cwd (fs w) target) as [fs'|e]; [exact Hdir|].
  split; [exact Hdir|]. intros rest fc ec.
  rewrite copy_loop_raise with (e := e); rewrite Hdir; reflexivity.
Qed.



Lemma main_raise (argv : list string) (w : World) (e : exn) :
  fst (do_main cwd asctime ditto argv w) = Raise e ->
  fst (main cwd asctime ditto argv w) = 1.
Proof.
  unfold main. destruct (do_main cwd asctime ditto argv w) as [[v|e'] w1];
    [discriminate | reflexivity].
Qed.

Lemma main_completed (argv : list string) (w : World) (v : pyval) :
  fst (do_main cwd asctime ditto argv w) = Ok v ->
  fst (main cwd asctime ditto argv w) = 0.
Proof.
  unfold main. destruct (do_main cwd asctime ditto argv w) as [[v'|e'] w1];
    [reflexivity | discriminate].
Qed.

End ErrorPaths.

Section Listing.

Variable cwd : string.
Variable ditto : node -> string -> string -> ditto_outcome.

Local Abbreviation join := posixpath.join.





End Listing.

Section Checksum.

Variable cwd : string.

(** C9.  For a file that can be opened, [checksum_md5] takes the content
    in chunks of at most [md5.block_size*128] bytes until none is left,
    feeds each chunk to the hash object, and returns the sixteen-byte
    digest as thirty-two lowercase hexadecimal digits; the string is the
    digest of the content as a whole, whatever the path and the rest of
    the world. *)
Theorem checksum_md5_digest_of_content
    (filename : string) (w : World) (content : list byte)
    (Hopen : FS.open_rb cwd (fs w) filename = Ok content) :
  (exists chunks : list (list byte),
      List.concat chunks = content
      /\ Forall (fun c => (1 <= List.length c <= MD5.block_size * 128)%nat)
                chunks
      /\ fst (checksum_md5 cwd filename w)
         = Ok (hexlify
                 (MD5.digest
                    (fold_left (fun o c => MD5.update o (map byte_val c))
                               chunks MD5.new))))
  /\ checksum_md5 cwd filename w
     = (Ok (md5_hex content), record (EvOpen filename) w)
  /\ String.length (md5_hex content) = 32%nat
  /\ Forall is_lower_hex (list_ascii_of_string (md5_hex content)).
Proof.
  split; [|split; [|split]].
  - destruct (read_loop_chunks MD5.new content) as (chunks & Hcat & Hall & Hfold).
    exists chunks. split; [exact Hcat|]. split; [exact Hall|].
    unfold checksum_md5. rewrite Hopen, Hfold. reflexivity.
  - apply checksum_md5_ok. exact Hopen.
  - unfold md5_hex. rewrite hexlify_length, digest_length. reflexivity.
  - apply hexlify_lower.
Qed.

End Checksum.

Section EntryPoint.

Variable cwd : string.
Variable asctime : string.
Variable ditto : node -> string -> string -> ditto_outcome.

(** With a wrong number of arguments [do_main] prints the banner and the
    usage line, touches nothing and returns 1. *)
Lemma do_main_usage (argv : list string) (w : World) :
  List.length argv <> 3%nat ->
  do_main cwd asctime ditto argv w
  = (Ok (VInt 1),
     snd (print usage_line (snd (print (banner_line asctime) w)))).
Proof.
  intros H. unfold do_main, bind at 1.
  cbn [print sys_stdout_write snd fst].
  apply Nat.eqb_neq in H. rewrite H. reflexivity.
Qed.

(** C8, on the code.  Started with a single argument the program prints
    the usage line and [do_main] returns 1 before anything is opened,
    copied or created; the [__main__] block drops that value, and the
    exit status of the process is 0. *)
Theorem usage_error_exit_status (w : World) :
  let argv := ["SPPmigrate.py"; "only-the-source"]%string in
  let r := do_main cwd asctime ditto argv w in
  fst r = Ok (VInt 1)
  /\ stdout (snd r) = (stdout w ++ [(banner_line asctime ++ NL)%string;
                                    (usage_line ++ NL)%string])%list
  /\ fs (snd r) = fs w
  /\ events (snd r) = events w
  /\ fst (main cwd asctime ditto argv w) = 0.
Proof.
  intros argv r. subst r. unfold main.
  rewrite do_main_usage by (cbn; lia).
  cbn. rewrite <- app_assoc. repeat split.
Qed.

End EntryPoint.

(** ** The sample runs *)

(** The end-to-end scenario [root/{a.txt, sub/{b.txt}}]: two files, no
    error, and both files in place under the target. *)
Example small_tree_copied :
  let r := do_copy "/" (ditto_cp "/") "root" "T" (world_of fs_small ["y"; "y"]%string) in
  fst r = Ok (2, 0)
  /\ FS.open_rb "/" (fs (snd r)) "/T/a.txt" = Ok (text "alpha")
  /\ FS.open_rb "/" (fs (snd r)) "/T/sub/b.txt" = Ok (text "beta").
Proof. vm_compute. repeat split. Qed.

(** The plan of a tree of depth three. *)
Example deep_tree_plan :
  let tree := walk_node "/" fs_deep "s"
                (Dir [("f0", File (text "0"));
                      ("a", Dir [("f1", File (text "1"));
                                 ("b", Dir [("c", Dir [("f3", File (text "3"))])]);
                                 ("d", Dir [])]);
                      ("e", Dir [("f2", File (text "2"))])])%string in
  copy_list_of "/" "/mnt/T" "/s" (source_list_of "/" tree)
  = Ok [("/s", "/mnt/T/."); ("/s/a", "/mnt/T/a"); ("/s/a/b", "/mnt/T/a/b");
        ("/s/a/b/c", "/mnt/T/a/b/c"); ("/s/a/d", "/mnt/T/a/d");
        ("/s/e", "/mnt/T/e")]%string.
Proof. vm_compute. reflexivity. Qed.

(** C1, on the code.  [query_yes_no] answers with the string [y] or [n],
    which is never equal to [False], so neither gate of [do_copy] returns
    [(0, 0)]: with [n] typed at the first gate, at the second, or at both,
    the run copies the two files of the sample tree as it does after
    [y] and [y]. *)
Theorem decline_does_not_abort :
  (forall (question : string) (w : World) (answer : pyval) (w' : World),
      query_yes_no question w = (Ok answer, w') ->
      (answer = VStr "y" \/ answer = VStr "n")
      /\ py_eq answer (VBool false) = false)
  /\
  let run typed :=
    do_copy "/" (ditto_cp "/") "root" "T" (world_of fs_small typed) in
  fst (run ["n"; "y"]%string) = Ok (2, 0)
  /\ fst (run ["y"; "n"]%string) = Ok (2, 0)
  /\ fst (run ["n"; "n"]%string) = Ok (2, 0)
  /\ events (snd (run ["n"; "n"]%string))
     = [EvDitto "/root/a.txt" "/T/./a.txt"; EvOpen "/root/a.txt";
        EvOpen "/T/./a.txt"; EvDitto "/root/sub/b.txt" "/T/sub/b.txt";
        EvOpen "/root/sub/b.txt"; EvOpen "/T/sub/b.txt"]%string
  /\ FS.open_rb "/" (fs (snd (run ["n"; "n"]%string))) "/T/a.txt"
     = Ok (text "alpha")
  /\ fs (snd (run ["n"; "n"]%string)) = fs (snd (run ["y"; "y"]%string)).
Proof.
  split.
  - intros question w answer w' H. split.
    + exact (query_yes_no_on_answer question (stdin w) w answer w' H).
    + exact (query_yes_no_not_False question w answer w' H).
  - vm_compute. repeat split.
Qed.

(** A source root without a regular file of its own: the target of the root
    is [T/.], which [os.mkdir] cannot create, and the run ends at the first
    directory of the plan. *)
Example root_without_files :
  let root := Dir [("root", Dir [("empty", Dir [])])]%string in
  fst (do_copy "/" (ditto_cp "/") "root" "T" (world_of root ["y"; "y"]%string))
  = Raise (OSError ENOENT "/T/.").
Proof. vm_compute. reflexivity. Qed.

(** ** The statements at work on the sample worlds *)

Local Open Scope string_scope.

Lemma copy_file_checksum_verdict_witness :
  let w := world_of fs_small [] in
  let fs' := left_by (ditto_cp "/" fs_small "/root/a.txt" "/T/a.txt") fs_small in
  ditto_cp "/" (fs w) "/root/a.txt" "/T/a.txt" = Exited 0 fs'
  /\ FS.open_rb "/" fs' "/root/a.txt" = Ok (text "alpha")
  /\ FS.open_rb "/" fs' "/T/a.txt" = Ok (text "alpha")
  /\ fst (copy_file "/" (ditto_cp "/") "/root/a.txt" "/T/a.txt" w) = Ok true.
Proof.
  intros w fs'.
  assert (Hd : ditto_cp "/" (fs w) "/root/a.txt" "/T/a.txt" = Exited 0 fs')
    by (vm_compute; reflexivity).
  assert (Hs : FS.open_rb "/" fs' "/root/a.txt" = Ok (text "alpha"))
    by (vm_compute; reflexivity).
  assert (Ht : FS.open_rb "/" fs' "/T/a.txt" = Ok (text "alpha"))
    by (vm_compute; reflexivity).
  split; [exact Hd|]. split; [exact Hs|]. split; [exact Ht|].
  apply (proj1 (copy_file_checksum_verdict "/" (ditto_cp "/")
                  "/root/a.txt" "/T/a.txt" w fs' _ _ Hd Hs Ht)).
  reflexivity.
Defined.

(** A copy that leaves an empty target is reported with both digests. *)
Example truncated_copy_detected :
  let r := copy_file "/" (ditto_truncating "/") "/root/a.txt" "/T/a.txt"
             (world_of fs_small []) in
  fst r = Ok false
  /\ stdout (snd r)
     = ["Copying: /root/a.txt to /T/a.txt. ";
        "FAILED - Checksum mismatch: Source: 2c1743a391305fbf367df8e4f069f9f9, Target: d41d8cd98f00b204e9800998ecf8427e" ++ NL].
Proof. vm_compute. split; reflexivity. Qed.

Lemma copy_file_primitive_failure_witness :
  let w := world_of fs_blocked [] in
  ditto_cp "/" (fs w) "/root/a.txt" "/T/./a.txt" = Exited 1 fs_blocked
  /\ 1 <> 0
  /\ (let r := copy_file "/" (ditto_cp "/") "/root/a.txt" "/T/./a.txt" w in
      fst r = Ok false
      /\ events (snd r) = [EvDitto "/root/a.txt" "/T/./a.txt"]).
Proof.
  intros w.
  assert (Hd : ditto_cp "/" (fs w) "/root/a.txt" "/T/./a.txt"
               = Exited 1 fs_blocked) by (vm_compute; reflexivity).
  assert (Hs : 1 <> 0) by lia.
  split; [exact Hd|]. split; [exact Hs|].
  destruct (copy_file_primitive_failure "/" (ditto_cp "/")
              "/root/a.txt" "/T/./a.txt" w 1 fs_blocked Hd Hs)
    as (Hr & He & _).
  split; [exact Hr | exact He].
Defined.

Lemma checksum_md5_digest_of_content_witness :
  let w := world_of fs_small [] in
  FS.open_rb "/" (fs w) "/root/a.txt" = Ok (text "alpha")
  /\ checksum_md5 "/" "/root/a.txt" w
     = (Ok (md5_hex (text "alpha")), record (EvOpen "/root/a.txt") w)
  /\ String.length (md5_hex (text "alpha")) = 32%nat.
Proof.
  intros w.
  assert (Ho : FS.open_rb "/" (fs w) "/root/a.txt" = Ok (text "alpha"))
    by (vm_compute; reflexivity).
  split; [exact Ho|].
  destruct (checksum_md5_digest_of_content "/" "/root/a.txt" w _ Ho)
    as (_ & Hsum & Hlen & _).
  split; [exact Hsum | exact Hlen].
Defined.

Lemma counts_within_bounds_witness :
  let w := world_of fs_blocked ["y"; "y"] in
  fst (copy_dir "/" (ditto_cp "/") "/root" "/T/." w) = Ok (1, 1)
  /\ 0 <= 1 <= 1
  /\ fst (do_copy "/" (ditto_cp "/") "/root" "/T" w) = Ok (2, 2)
  /\ 0 <= 2 <= 2.
Proof.
  intros w.
  assert (Hd : fst (copy_dir "/" (ditto_cp "/") "/root" "/T/." w) = Ok (1, 1))
    by (vm_compute; reflexivity).
  assert (Hc : fst (do_copy "/" (ditto_cp "/") "/root" "/T" w) = Ok (2, 2))
    by (vm_compute; reflexivity).
  destruct (counts_within_bounds "/" (ditto_cp "/") "/root" "/T/." w)
    as (Hdir & _ & _).
  destruct (counts_within_bounds "/" (ditto_cp "/") "/root" "/T" w)
    as (_ & _ & Hrun).
  split; [exact Hd|]. split; [exact (Hdir 1 1 Hd)|].
  split; [exact Hc | exact (Hrun 2 2 Hc)].
Defined.

(** Against C5 as stated: the target already has the empty directory, the
    [os.mkdir] of [copy_dir] fails, and the run ends there; the directory
    that follows in the plan is never copied. *)
Lemma mkdir_conflict_ends_run :
  let r := do_copy "/" (ditto_cp "/") "/src" "/dst"
             (world_of fs_conflict ["y"; "y"]) in
  fst r = Raise (OSError EEXIST "/dst/empty")
  /\ events (snd r)
     = [EvDitto "/src/a.txt" "/dst/./a.txt"; EvOpen "/src/a.txt";
        EvOpen "/dst/./a.txt"; EvMkdir "/dst/empty"]
  /\ ~ In (EvDitto "/src/later/b.txt" "/dst/later/b.txt") (events (snd r))
  /\ FS.isfile "/" (fs (snd r)) "/dst/later/b.txt" = false.
Proof.
  vm_compute. split; [reflexivity|]. split; [reflexivity|].
  split; [|reflexivity].
  intros H. repeat (destruct H as [H|H]; [discriminate H|]). exact H.
Qed.

Lemma empty_directory_mkdir_witness :
  let w := world_of fs_conflict [] in
  FS.listdir "/" (fs w) "/src/empty" = Ok []
  /\ (forall name, In name [] ->
        FS.isfile "/" (fs w) (posixpath.join "/src/empty" name) = false)
  /\ FS.mkdir "/" (fs w) "/dst/empty" = Raise (OSError EEXIST "/dst/empty")
  /\ fst (copy_dir "/" (ditto_cp "/") "/src/empty" "/dst/empty" w)
     = Raise (OSError EEXIST "/dst/empty")
  /\ fst (copy_loop "/" (ditto_cp "/")
            [("/src/empty", "/dst/empty"); ("/src/later", "/dst/later")] 1 0 w)
     = Raise (OSError EEXIST "/dst/empty").
Proof.
  intros w.
  assert (Hl : FS.listdir "/" (fs w) "/src/empty" = Ok [])
    by (vm_compute; reflexivity).
  assert (Hn : forall name, In name [] ->
             FS.isfile "/" (fs w) (posixpath.join "/src/empty" name) = false)
    by (intros name []).
  assert (Hm : FS.mkdir "/" (fs w) "/dst/empty"
               = Raise (OSError EEXIST "/dst/empty"))
    by (vm_compute; reflexivity).
  pose proof (empty_directory_mkdir "/" (ditto_cp "/")
                "/src/empty" "/dst/empty" w [] Hl Hn) as H.
  cbv zeta in H. rewrite Hm in H. destruct H as (Hdir & Hloop).
  split; [exact Hl|]. split; [exact Hn|]. split; [exact Hm|].
  split; [rewrite Hdir; reflexivity | rewrite Hloop; reflexivity].
Defined.

(** An empty source directory whose target is free is created. *)
Example empty_directory_created :
  let r := copy_dir "/" (ditto_cp "/") "/src/empty" "/dst/fresh"
             (world_of fs_conflict []) in
  fst r = Ok (0, 0)
  /\ FS.listdir "/" (fs (snd r)) "/dst/fresh" = Ok [].
Proof. vm_compute. split; reflexivity. Qed.


(** A failed [ditto] run is counted and the run goes on: two files, two
    errors, and the process exits with 0. *)
Example failed_copies_are_counted :
  let w := world_of fs_blocked ["y"; "y"] in
  fst (do_copy "/" (ditto_cp "/") "/root" "/T" w) = Ok (2, 2)
  /\ fst (main "/" "now" (ditto_cp "/") ["SPPmigrate.py"; "/root"; "/T"] w) = 0.
Proof. vm_compute. split; reflexivity. Qed.


Local Close Scope string_scope.

(** ** The yes/no prompt *)

Section Prompt.

Lemma lower_empty (line : string) : lower line = EmptyString -> line = EmptyString.
Proof. destruct line; [reflexivity | discriminate]. Qed.

Lemma query_yes_no_on_accepts (question line : string) (rest : list string)
    (c : ascii) (skipped : list string) :
  Forall rejected skipped -> accepted line c ->
  forall w : World,
    query_yes_no_on question (skipped ++ line :: rest) w
    = (Ok (VStr (String c EmptyString)),
       mkWorld (fs w) rest (stdout w ++ prompts question skipped)
         (option_map (fun l => l ++ prompts question skipped) (logfile w))
         (events w)).
Proof.
  intros Hskipped (s & Hlow & Hc).
  induction Hskipped as [|x skipped (cx & sx & Hx & Hy & Hn) _ IH]; intros w.
  - cbn [app query_yes_no_on]. rewrite Hlow.
    assert (E : ((String c "" =? "y") || (String c "" =? "n"))%string = true).
    { destruct Hc as [-> | ->]; reflexivity. }
    rewrite E. unfold prompts. cbn. destruct (logfile w); reflexivity.
  - cbn [app query_yes_no_on]. rewrite Hx.
    assert (E : ((String cx "" =? "y") || (String cx "" =? "n"))%string = false).
    { apply orb_false_iff. split; apply String.eqb_neq; congruence. }
    rewrite E, IH. unfold prompts. cbn.
    rewrite <- !app_assoc. cbn.
    destruct (logfile w); [|reflexivity]. cbn. rewrite <- !app_assoc. reflexivity.
Qed.

Lemma query_yes_no_on_raises (question : string) (skipped : list string) :
  Forall rejected skipped ->
  (forall w : World,
      fst (query_yes_no_on question skipped w) = Raise EOFError)
  /\ (forall (w : World) (rest : list string),
         fst (query_yes_no_on question (skipped ++ EmptyString :: rest) w)
         = Raise IndexError).
Proof.
  intros Hskipped.
  induction Hskipped as [|x skipped (cx & sx & Hx & Hy & Hn) _ (IHe & IHi)].
  - split; [intros w; reflexivity | intros w rest; reflexivity].
  - assert (E : ((String cx "" =? "y") || (String cx "" =? "n"))%string = false).
    { apply orb_false_iff. split; apply String.eqb_neq; congruence. }
    split; [intros w | intros w rest];
      cbn [app query_yes_no_on]; rewrite Hx, E; [apply IHe | apply IHi].
Qed.

(** X1.  [query_yes_no] refuses the lines that start with neither [y] nor
    [n] in either case, asking again after each, and answers with the
    lowercase first letter of the first line that does; it takes these
    lines from the input and no more, and touches nothing but the console
    and the log. *)
Theorem query_yes_no_answer
    (question line : string) (skipped rest : list string) (c : ascii)
    (w : World)
    (Hstdin : stdin w = (skipped ++ line :: rest)%list)
    (Hskipped : Forall rejected skipped)
    (Hline : accepted line c) :
  let r := query_yes_no question w in
  fst r = Ok (VStr (String c EmptyString))
  /\ stdin (snd r) = rest
  /\ stdout (snd r) = (stdout w ++ prompts question skipped)%list
  /\ logfile (snd r)
     = option_map (fun l => (l ++ prompts question skipped)%list) (logfile w)
  /\ same_disk w (snd r).
Proof.
  intros r. subst r. unfold query_yes_no. rewrite Hstdin.
  rewrite (query_yes_no_on_accepts question line rest c skipped Hskipped Hline).
  cbn. repeat split.
Qed.

(** X2.  After lines it refuses, [query_yes_no] raises [EOFError] when the
    input has ended and [IndexError] when the next line is empty: it does
    not ask again. *)
Theorem query_yes_no_gives_up
    (question : string) (skipped : list string) (w : World)
    (Hskipped : Forall rejected skipped) :
  (stdin w = skipped -> fst (query_yes_no question w) = Raise EOFError)
  /\ (forall rest, stdin w = (skipped ++ EmptyString :: rest)%list ->
        fst (query_yes_no question w) = Raise IndexError).
Proof.
  unfold query_yes_no.
  destruct (query_yes_no_on_raises question skipped Hskipped) as (Heof & Hidx).
  split.
  - intros ->. apply Heof.
  - intros rest ->. apply Hidx.
Qed.

End Prompt.

(** ** What a transfer leaves behind *)

Section Effects.

Variable cwd : string.
Variable ditto : node -> string -> string -> ditto_outcome.

Local Abbreviation join := posixpath.join.

Lemma dittos_length_app (l l' : list event) :
  List.length (dittos (l ++ l'))
  = (List.length (dittos l) + List.length (dittos l'))%nat.
Proof. unfold dittos. rewrite filter_app, length_app. reflexivity. Qed.

Lemma failed_lines_app (l l' : list string) :
  failed_lines (l ++ l') = failed_lines l ++ failed_lines l'.
Proof. apply filter_app. Qed.

Lemma mkdirs_app (l l' : list event) : mkdirs (l ++ l') = mkdirs l ++ mkdirs l'.
Proof. apply filter_app. Qed.

Lemma option_map_app (l0 : option (list string)) (a b : list string) :
  option_map (fun l => l ++ b) (option_map (fun l => l ++ a) l0)
  = option_map (fun l => l ++ (a ++ b)) l0.
Proof. destruct l0; [cbn; rewrite app_assoc|]; reflexivity. Qed.

(** The effects of one call of [copy_file], whatever its outcome: one
    [ditto] run, then the files opened for the checksums; the line that
    announces the copy, then at most one line with the verdict. *)
Lemma copy_file_effects (source target : string) (w : World) :
  let r := copy_file cwd ditto source target w in
  exists (opens : list event) (verdict : list string),
    events (snd r) = events w ++ EvDitto source target :: opens
    /\ incl opens [EvOpen source; EvOpen target]
    /\ stdout (snd r) = stdout w ++ copying_line source target :: verdict
    /\ logfile (snd r)
       = option_map (fun l => l ++ copying_line source target :: verdict)
                    (logfile w)
    /\ stdin (snd r) = stdin w
    /\ match fst r with
       | Ok true => failed_lines verdict = [] /\ opens = [EvOpen source; EvOpen target]
       | Ok false => exists line, verdict = [line] /\ is_failed_line line = true
       | Raise e => verdict = [] /\ io_or_os e
       end.
Proof.
  intros r. subst r. rewrite copy_file_unfold. unfold check_call_ditto.
  cbn [sys_stdout_write snd fst fs events].
  destruct (ditto (fs w) source target) as [status fs'|].
  - destruct (status =? 0).
    + unfold checksum_md5, set_fs, record.
      cbn [fs stdin stdout logfile events].
      destruct (FS.open_rb cwd fs' source) as [cs|e] eqn:Es; cbv beta iota zeta.
      * cbn [fs stdin stdout logfile events].
        destruct (FS.open_rb cwd fs' target) as [ct|e] eqn:Et; cbv beta iota zeta.
        -- match goal with
           | |- context [String.eqb ?a ?b] => destruct (String.eqb a b)
           end; cbn [print sys_stdout_write snd fst fs stdin stdout logfile events].
           ++ exists [EvOpen source; EvOpen target]. eexists.
              split; [rewrite <- !app_assoc; reflexivity|].
              split; [apply incl_refl|].
              split; [rewrite <- app_assoc; reflexivity|].
              split; [destruct (logfile w); cbn; [rewrite <- app_assoc|]; reflexivity|].
              split; [reflexivity|]. split; reflexivity.
           ++ exists [EvOpen source; EvOpen target]. eexists.
              split; [rewrite <- !app_assoc; reflexivity|].
              split; [apply incl_refl|].
              split; [rewrite <- app_assoc; reflexivity|].
              split; [destruct (logfile w); cbn; [rewrite <- app_assoc|]; reflexivity|].
              split; [reflexivity|]. eexists. split; reflexivity.
        -- exists [EvOpen source; EvOpen target], [].
           cbn [fst snd fs stdin stdout logfile events].
           split; [rewrite <- !app_assoc; reflexivity|].
           split; [apply incl_refl|].
           split; [reflexivity|].
           split; [destruct (logfile w); reflexivity|].
           split; [reflexivity|]. split; [reflexivity|].
           unfold FS.open_rb in Et.
           destruct (FS.stat cwd fs' target) as [[?|?|?|]|];
             inversion Et; exact I.
      * exists [EvOpen source], [].
        cbn [fst snd fs stdin stdout logfile events].
        split; [rewrite <- !app_assoc; reflexivity|].
        split; [intros x [<-|[]]; left; reflexivity|].
        split; [reflexivity|].
        split; [destruct (logfile w); reflexivity|].
        split; [reflexivity|]. split; [reflexivity|].
        unfold FS.open_rb in Es.
        destruct (FS.stat cwd fs' source) as [[?|?|?|]|];
          inversion Es; exact I.
    + exists []. eexists.
      cbn [print sys_stdout_write set_fs record fst snd fs stdin stdout logfile events].
      split; [reflexivity|].
      split; [intros x []|].
      split; [rewrite <- app_assoc; reflexivity|].
      split; [destruct (logfile w); cbn; [rewrite <- app_assoc|]; reflexivity|].
      split; [reflexivity|]. eexists. split; reflexivity.
  - exists [], [].
    cbn [record fst snd fs stdin stdout logfile events].
    split; [reflexivity|].
    split; [intros x []|].
    split; [reflexivity|].
    split; [destruct (logfile w); reflexivity|].
    split; [reflexivity|]. split; [reflexivity | exact I].
Qed.

Lemma opens_only (source target : string) (opens : list event) :
  incl opens [EvOpen source; EvOpen target] ->
  dittos opens = [] /\ mkdirs opens = []
  /\ Forall (fun e => e = EvOpen source \/ e = EvOpen target) opens.
Proof.
  induction opens as [|e l IH]; intros H; [repeat split; constructor|].
  destruct IH as (Hd & Hm & Hf).
  { intros x Hx. apply H. right. exact Hx. }
  assert (He : e = EvOpen source \/ e = EvOpen target).
  { destruct (H e (or_introl eq_refl)) as [<-|[<-|[]]]; auto. }
  split; [|split].
  - destruct He as [-> | ->]; exact Hd.
  - destruct He as [-> | ->]; exact Hm.
  - constructor; assumption.
Qed.

Lemma copying_line_not_failed (source target : string) :
  is_failed_line (copying_line source target) = false.
Proof. reflexivity. Qed.

(** The effects of the loop of [copy_dir] over part of a listing. *)
Lemma copy_dir_loop_effects (source target : string) (all : list string)
    (names : list string) :
  incl names all ->
  forall (fc ec : Z) (w : World),
    let r := copy_dir_loop cwd ditto source target names fc ec w in
    exists (new : list event) (added : list string),
      events (snd r) = events w ++ new
      /\ Forall (entry_event source target all) new
      /\ stdout (snd r) = stdout w ++ added
      /\ logfile (snd r) = option_map (fun l => l ++ added) (logfile w)
      /\ stdin (snd r) = stdin w
      /\ match fst r with
         | Ok (fc', ec') =>
             fc' = fc + Z.of_nat (List.length (dittos new))
             /\ ec' = ec + Z.of_nat (List.length (failed_lines added))
         | Raise e => io_or_os e
         end.
Proof.
  induction names as [|name rest IH]; intros Hincl fc ec w r; subst r.
  - exists [], []. cbn [copy_dir_loop ret fst snd dittos failed_lines filter List.length].
    rewrite !app_nil_r.
    split; [reflexivity|]. split; [constructor|]. split; [reflexivity|].
    split; [destruct (logfile w); cbn; [rewrite app_nil_r|]; reflexivity|].
    split; [reflexivity|]. split; cbn; lia.
  - assert (Hin : In name all) by (apply Hincl; left; reflexivity).
    assert (Hrest : incl rest all) by (intros x Hx; apply Hincl; right; exact Hx).
    rewrite copy_dir_loop_cons.
    destruct (FS.isfile cwd (fs w) (join source name)); [|apply (IH Hrest)].
    destruct (copy_file_effects (join source name) (join target name) w)
      as (opens & verdict & Hev & Hopens & Hout & Hlog & Hin0 & Hres).
    destruct (opens_only _ _ _ Hopens) as (Hd & _ & Hf).
    assert (Hentry : Forall (entry_event source target all)
                       (EvDitto (join source name) (join target name) :: opens)).
    { constructor.
      - exists name. auto.
      - eapply Forall_impl; [|exact Hf]. intros e [-> | ->]; exists name; auto. }
    destruct (copy_file cwd ditto (join source name) (join target name) w)
      as [[ok|e] w1]; cbn [fst snd] in *.
    + specialize (IH Hrest (fc + 1) (if ok then ec else ec + 1) w1).
      cbv zeta in IH.
      destruct IH as (new & added & Hev' & Hall & Hout' & Hlog' & Hin' & Hres').
      exists ((EvDitto (join source name) (join target name) :: opens) ++ new),
             ((copying_line (join source name) (join target name) :: verdict)
                ++ added).
      split; [rewrite Hev', Hev, <- app_assoc; reflexivity|].
      split; [apply Forall_app; split; assumption|].
      split; [rewrite Hout', Hout, <- app_assoc; reflexivity|].
      split; [rewrite Hlog', Hlog; apply option_map_app|].
      split; [congruence|].
      destruct (fst (copy_dir_loop _ _ _ _ _ _ _ _)) as [[fc' ec']|e];
        [|exact Hres'].
      destruct Hres' as (Hfc & Hec).
      rewrite dittos_length_app, failed_lines_app, length_app.
      cbn [dittos filter is_ditto List.length]. fold (dittos opens). rewrite Hd.
      cbn [failed_lines filter]. rewrite copying_line_not_failed.
      fold (failed_lines verdict).
      destruct ok.
      * destruct Hres as (Hv & _). rewrite Hv. cbn [List.length]. lia.
      * destruct Hres as (line & -> & Hline).
        cbn [failed_lines filter]. rewrite Hline. cbn [List.length]. lia.
    + destruct Hres as (-> & He).
      exists (EvDitto (join source name) (join target name) :: opens),
             [copying_line (join source name) (join target name)].
      repeat split; assumption.
Qed.

Lemma entry_events_plain (source target : string) (names : list string)
    (new : list event) :
  Forall (entry_event source target names) new -> mkdirs new = [].
Proof.
  induction 1 as [|e l (name & _ & [-> | [-> | ->]]) _ IH]; cbn; auto.
Qed.

Lemma mkdir_exn (root : node) (path : string) (e : exn) :
  FS.mkdir cwd root path = Raise e -> io_or_os e.
Proof.
  unfold FS.mkdir.
  repeat match goal with
         | |- context [match ?x with _ => _ end] => destruct x
         end;
    intros H; inversion H; exact I.
Qed.

Lemma listdir_exn (root : node) (path : string) (e : exn) :
  FS.listdir cwd root path = Raise e -> io_or_os e.
Proof.
  unfold FS.listdir.
  repeat match goal with
         | |- context [match ?x with _ => _ end] => destruct x
         end;
    intros H; inversion H; exact I.
Qed.

Lemma wrote_nil (w : World) : wrote [] [] w w.
Proof.
  unfold wrote. rewrite !app_nil_r.
  split; [reflexivity|]. split; [reflexivity|]. split; [|reflexivity].
  destruct (logfile w); cbn; [rewrite app_nil_r|]; reflexivity.
Qed.

Lemma wrote_trans (n1 n2 : list event) (a1 a2 : list string)
    (w w1 w2 : World) :
  wrote n1 a1 w w1 -> wrote n2 a2 w1 w2 -> wrote (n1 ++ n2) (a1 ++ a2) w w2.
Proof.
  intros (He & Ho & Hl & Hi) (He' & Ho' & Hl' & Hi'). unfold wrote.
  rewrite He', He, Ho', Ho, Hl', Hl, Hi', Hi, <- !app_assoc, option_map_app.
  repeat split.
Qed.

Lemma wrote_write (text : string) (w : World) :
  wrote [] [text] w (snd (sys_stdout_write text w)).
Proof.
  unfold wrote. cbn. rewrite app_nil_r.
  split; [reflexivity|]. split; [reflexivity|]. split; [|reflexivity].
  destruct (logfile w); reflexivity.
Qed.

Lemma wrote_print (line : string) (w : World) :
  wrote [] [(line ++ NL)%string] w (snd (print line w)).
Proof. apply wrote_write. Qed.

Lemma wrote_record (e : event) (w : World) : wrote [e] [] w (record e w).
Proof.
  unfold wrote. cbn. rewrite app_nil_r.
  split; [reflexivity|]. split; [reflexivity|]. split; [|reflexivity].
  destruct (logfile w); cbn; [rewrite app_nil_r|]; reflexivity.
Qed.

Lemma wrote_set_fs (new : list event) (added : list string) (f : node)
    (w w' : World) :
  wrote new added w w' -> wrote new added w (set_fs f w').
Proof. intros H. exact H. Qed.

Lemma dir_line_not_failed (source target : string) :
  is_failed_line (copying_dir_line source target ++ NL) = false.
Proof. reflexivity. Qed.

Lemma creating_line_not_failed (target : string) :
  is_failed_line (creating_line target ++ NL) = false.
Proof. reflexivity. Qed.

(** The effects of [copy_dir]. *)
Lemma copy_dir_effects (source target : string) (w : World) :
  let r := copy_dir cwd ditto source target w in
  exists (new : list event) (added : list string),
    wrote new added w (snd r)
    /\ (forall names, FS.listdir cwd (fs w) source = Ok names ->
          Forall (fun e => e = EvMkdir target
                           \/ entry_event source target names e) new)
    /\ match fst r with
       | Ok (fc, ec) =>
           fc = Z.of_nat (List.length (dittos new))
           /\ ec = Z.of_nat (List.length (failed_lines added))
           /\ mkdirs new = if fc =? 0 then [EvMkdir target] else []
       | Raise e => io_or_os e
       end.
Proof.
  intros r. subst r. rewrite copy_dir_unfold. cbv zeta.
  pose proof (wrote_print (copying_dir_line source target) w) as H0.
  set (w0 := snd (print (copying_dir_line source target) w)) in *.
  destruct (FS.listdir cwd (fs w) source) as [names|e] eqn:El.
  - pose proof (copy_dir_loop_effects source target names names
                  (incl_refl names) 0 0 w0) as H.
    cbv zeta in H.
    destruct H as (new & added & Hev & Hall & Hout & Hlog & Hin & Hres).
    assert (H1 : wrote new added w0
                   (snd (copy_dir_loop cwd ditto source target names 0 0 w0)))
      by (repeat split; assumption).
    pose proof (wrote_trans _ _ _ _ _ _ _ H0 H1) as H01.
    assert (Hplain : mkdirs new = []) by (eapply entry_events_plain; eauto).
    assert (Hall' : Forall (fun e => e = EvMkdir target
                              \/ entry_event source target names e) new).
    { eapply Forall_impl; [|exact Hall]. intros e He. right. exact He. }
    clear Hev Hout Hlog Hin H0 H1.
    destruct (copy_dir_loop _ _ _ _ _ _ _ _) as [[[fc ec]|e] w1];
      cbn [fst snd] in *.
    + destruct Hres as (Hfc & Hec).
      destruct (fc =? 0) eqn:E0.
      * pose proof (wrote_trans _ _ _ _ _ _ _ H01
                      (wrote_trans _ _ _ _ _ _ _
                         (wrote_print (creating_line target) w1)
                         (wrote_record (EvMkdir target) _))) as H2.
        cbn [app] in H2.
        exists (new ++ [EvMkdir target]),
               (((copying_dir_line source target ++ NL)%string :: added)
                  ++ [(creating_line target ++ NL)%string]).
        assert (Hshape : forall names0, Ok names = Ok names0 ->
                  Forall (fun e => e = EvMkdir target
                                   \/ entry_event source target names0 e)
                         (new ++ [EvMkdir target])).
        { intros names0 Hn. injection Hn as <-. apply Forall_app. split;
            [exact Hall' | constructor; [left; reflexivity | constructor]]. }
        destruct (FS.mkdir cwd (fs w1) target) as [fs'|e] eqn:Em;
          cbn [fst snd].
        -- split; [apply wrote_set_fs; exact H2|]. split; [exact Hshape|].
           rewrite dittos_length_app, mkdirs_app, Hplain.
           rewrite (failed_lines_app (_ :: added)).
           cbn [failed_lines filter app List.length dittos mkdirs is_ditto is_mkdir].
           rewrite dir_line_not_failed, creating_line_not_failed.
           fold (failed_lines added).
           split; [lia|]. split; [|rewrite E0; reflexivity].
           rewrite length_app. cbn [List.length]. lia.
        -- split; [exact H2|]. split; [exact Hshape|].
           eapply mkdir_exn. exact Em.
      * exists new, ((copying_dir_line source target ++ NL)%string :: added).
        split; [exact H01|].
        split; [intros names0 Hn; injection Hn as <-; exact Hall'|].
        split; [lia|]. split; [|rewrite E0; exact Hplain].
        cbn [failed_lines filter]. rewrite dir_line_not_failed.
        fold (failed_lines added). lia.
    + exists new, ((copying_dir_line source target ++ NL)%string :: added).
      split; [exact H01|].
      split; [intros names0 Hn; injection Hn as <-; exact Hall'|].
      exact Hres.
  - exists [], [(copying_dir_line source target ++ NL)%string].
    cbn [fst snd].
    split; [exact H0|]. split; [intros names0 Hn; discriminate Hn|].
    eapply listdir_exn. exact El.
Qed.

(** The effects of the loop of [do_copy] over a plan. *)
Lemma copy_loop_effects (copy_list : list (string * string)) :
  forall (fc ec : Z) (w : World),
    let r := copy_loop cwd ditto copy_list fc ec w in
    exists (new : list event) (added : list string),
      wrote new added w (snd r)
      /\ match fst r with
         | Ok (F, E) =>
             F = fc + Z.of_nat (List.length (dittos new))
             /\ E = ec + Z.of_nat (List.length (failed_lines added))
         | Raise e => io_or_os e
         end.
Proof.
  induction copy_list as [|[source target] rest IH]; intros fc ec w r; subst r.
  - exists [], []. cbn [copy_loop ret fst snd].
    split; [apply wrote_nil | cbn; lia].
  - rewrite copy_loop_cons.
    destruct (copy_dir_effects source target w)
      as (new & added & H1 & _ & Hres).
    destruct (copy_dir cwd ditto source target w) as [[[files errors]|e] w1];
      cbn [fst snd] in *.
    + destruct Hres as (Hf & He & _).
      pose proof (wrote_trans _ _ _ _ _ _ _ H1
                    (wrote_trans _ _ _ _ _ _ _
                       (wrote_print (copied_line files errors) w1)
                       (wrote_print "" _))) as H2.
      cbn [app] in H2.
      set (w2 := snd (print "" _)) in *.
      specialize (IH (fc + files) (ec + errors) w2). cbv zeta in IH.
      destruct IH as (new' & added' & H3 & Hres').
      pose proof (wrote_trans _ _ _ _ _ _ _ H2 H3) as H4.
      eexists. eexists. split; [exact H4|].
      destruct (fst (copy_loop _ _ _ _ _ _)) as [[F E]|e]; [|exact Hres'].
      destruct Hres' as (HF & HE).
      rewrite !app_nil_r, dittos_length_app, !failed_lines_app, !length_app.
      assert (Hl : failed_lines [(copied_line files errors ++ NL)%string;
                                 ("" ++ NL)%string] = []) by reflexivity.
      rewrite Hl. cbn [List.length]. lia.
    + exists new, added. split; assumption.
Qed.

End Effects.

(** ** The planning phase of [do_copy] *)

Section Planning.

Variable cwd : string.
Variable ditto : node -> string -> string -> ditto_outcome.

Local Abbreviation abspath := (posixpath.abspath cwd).

Lemma same_disk_refl (w : World) : same_disk w w.
Proof. split; reflexivity. Qed.

Lemma same_disk_trans (w w1 w2 : World) :
  same_disk w w1 -> same_disk w1 w2 -> same_disk w w2.
Proof. intros (Hf & He) (Hf' & He'). split; congruence. Qed.

Lemma emits_refl (ok : string -> Prop) (w : World) : emits ok w w.
Proof.
  exists []. rewrite app_nil_r. split; [reflexivity|]. split; [|constructor].
  destruct (logfile w); cbn; [rewrite app_nil_r|]; reflexivity.
Qed.

Lemma emits_trans (ok : string -> Prop) (w w1 w2 : World) :
  emits ok w w1 -> emits ok w1 w2 -> emits ok w w2.
Proof.
  intros (a & Ho & Hl & Ha) (a' & Ho' & Hl' & Ha'). exists (a ++ a').
  rewrite Ho', Ho, Hl', Hl, <- app_assoc, option_map_app.
  repeat split. apply Forall_app. split; assumption.
Qed.

Lemma emits_weaken (ok ok' : string -> Prop) (w w' : World) :
  (forall line, ok line -> ok' line) -> emits ok w w' -> emits ok' w w'.
Proof.
  intros H (a & Ho & Hl & Ha). exists a. repeat split; try assumption.
  eapply Forall_impl; [|exact Ha]. exact H.
Qed.

Lemma planned_refl (ok : string -> Prop) (w : World) : planned ok w w.
Proof. split; [apply same_disk_refl | apply emits_refl]. Qed.

Lemma planned_trans (ok : string -> Prop) (w w1 w2 : World) :
  planned ok w w1 -> planned ok w1 w2 -> planned ok w w2.
Proof.
  intros (Hd & He) (Hd' & He').
  split; [eapply same_disk_trans | eapply emits_trans]; eassumption.
Qed.

Lemma planned_write (ok : string -> Prop) (text : string) (w : World) :
  ok text -> planned ok w (snd (sys_stdout_write text w)).
Proof.
  intros H. split; [split; reflexivity|]. exists [text]. cbn.
  split; [reflexivity|]. split; [destruct (logfile w); reflexivity|].
  constructor; [exact H | constructor].
Qed.

Lemma planned_print (ok : string -> Prop) (line : string) (w : World) :
  ok (line ++ NL)%string -> planned ok w (snd (print line w)).
Proof. apply planned_write. Qed.

Lemma planned_set_stdin (ok : string -> Prop) (l : list string) (w w' : World) :
  planned ok w w' -> planned ok w (set_stdin l w').
Proof. intros H. exact H. Qed.

Lemma isabs_inv (s : string) :
  posixpath.isabs s = true -> exists r, s = String "/" r.
Proof.
  unfold posixpath.isabs. destruct s as [|c r]; cbn [String.prefix];
    [discriminate|].
  destruct (ascii_dec "/" c) as [<-|]; [eauto | discriminate].
Qed.

Lemma isabs_slash (r : string) : posixpath.isabs (String "/" r) = true.
Proof.
  unfold posixpath.isabs. cbn [String.prefix].
  destruct (ascii_dec "/" "/"); [destruct r; reflexivity | congruence].
Qed.

Lemma normpath_isabs (path : string) :
  posixpath.isabs path = true -> posixpath.isabs (posixpath.normpath path) = true.
Proof.
  intros H. unfold posixpath.normpath, posixpath.initial_slashes. rewrite H.
  destruct (isabs_inv path H) as (r & ->).
  cbn [String.eqb Ascii.eqb].
  destruct (String.prefix "//" (String "/" r)
            && negb (String.prefix "///" (String "/" r)))%bool;
    cbn [repeat String.concat String.append String.eqb]; apply isabs_slash.
Qed.

Lemma abspath_isabs (path : string) :
  posixpath.isabs cwd = true -> posixpath.isabs (abspath path) = true.
Proof.
  intros H. unfold posixpath.abspath. apply normpath_isabs.
  destruct (posixpath.isabs path) eqn:E; [exact E|].
  unfold posixpath.join. rewrite E.
  destruct (isabs_inv cwd H) as (r & ->).
  destruct ((String "/" r =? "")%string || posixpath.endswith_slash (String "/" r))%bool;
    cbn [String.append]; apply isabs_slash.
Qed.

Lemma absolute_line_plain (path rest tail : string) :
  posixpath.isabs path = true ->
  is_failed_line ((path ++ rest) ++ tail) = false.
Proof.
  intros H. destruct (isabs_inv path H) as (r & ->).
  unfold is_failed_line. cbn [String.append String.prefix].
  destruct (ascii_dec "F" "/"); [discriminate | reflexivity].
Qed.

Lemma print_source_list_planned (source_list : list (string * Z)) :
  Forall (fun d => exists p, fst d = abspath p) source_list ->
  forall (file_count : Z) (w : World),
    (exists total, fst (print_source_list source_list file_count w) = Ok total)
    /\ planned (plain_line cwd) w
         (snd (print_source_list source_list file_count w)).
Proof.
  induction 1 as [|d l (p & Hd) _ IH]; intros file_count w.
  - split; [eexists; reflexivity | apply planned_refl].
  - cbn [print_source_list]. unfold bind at 1 2.
    cbn [print sys_stdout_write fst snd].
    destruct (IH (file_count + snd d)
                (snd (print (fst d ++ " " ++ str_of_Z (snd d) ++ " files") w)))
      as (Hok & Hpl).
    split; [exact Hok|].
    eapply planned_trans; [|exact Hpl].
    apply planned_print. intros Habs. rewrite Hd.
    apply absolute_line_plain.
    apply abspath_isabs. exact Habs.
Qed.

Lemma print_copy_list_planned (copy_list : list (string * string)) :
  forall w : World,
    fst (print_copy_list copy_list w) = Ok tt
    /\ planned (plain_line cwd) w (snd (print_copy_list copy_list w)).
Proof.
  induction copy_list as [|entry l IH]; intros w.
  - split; [reflexivity | apply planned_refl].
  - cbn [print_copy_list]. unfold bind at 1 2.
    cbn [print sys_stdout_write fst snd].
    destruct (IH (snd (print ("Will copy " ++ fst entry ++ " to " ++ snd entry) w)))
      as (Hok & Hpl).
    split; [exact Hok|].
    eapply planned_trans; [|exact Hpl].
    apply planned_print. intros _. reflexivity.
Qed.

Lemma query_yes_no_on_planned (ok : string -> Prop) (question : string) :
  ok (question ++ " ")%string ->
  ok ("Please respond y or n" ++ NL)%string ->
  forall (lines : list string) (w : World),
    planned ok w (snd (query_yes_no_on question lines w)).
Proof.
  intros Hq Hp. induction lines as [|line rest IH]; intros w;
    cbn [query_yes_no_on].
  - apply planned_write. exact Hq.
  - pose proof (planned_write ok (question ++ " ") w Hq) as H1.
    destruct (lower line) as [|c s]; cbn [snd]; [exact H1|].
    destruct ((String c "" =? "y")%string || (String c "" =? "n")%string);
      cbn [snd]; [exact H1|].
    eapply planned_trans; [|apply IH].
    eapply planned_trans; [exact H1|].
    apply (planned_print ok "Please respond y or n"
             (set_stdin rest (snd (sys_stdout_write (question ++ " ") w)))).
    exact Hp.
Qed.

Lemma query_yes_no_planned (w : World) :
  planned (plain_line cwd) w (snd (query_yes_no "Continue? [y|n]" w)).
Proof.
  unfold query_yes_no. apply query_yes_no_on_planned; intros _; reflexivity.
Qed.

Lemma query_yes_no_exn (question : string) (lines : list string) :
  forall (w : World) (e : exn),
    fst (query_yes_no_on question lines w) = Raise e ->
    e = EOFError \/ e = IndexError.
Proof.
  induction lines as [|line rest IH]; intros w e; cbn [query_yes_no_on].
  - intros H. injection H as <-. left. reflexivity.
  - destruct (lower line) as [|c s]; cbn [fst].
    + intros H. injection H as <-. right. reflexivity.
    + destruct ((String c "" =? "y")%string || (String c "" =? "n")%string);
        cbn [fst]; [discriminate | apply IH].
Qed.

Lemma source_list_absolute (tree : list walk_item) :
  Forall (fun d : string * Z => exists p, fst d = abspath p)
         (source_list_of cwd tree).
Proof.
  unfold source_list_of. apply Forall_forall. intros d Hin.
  apply in_map_iff in Hin as (x & <- & _). eexists. reflexivity.
Qed.

(** The two phases of [do_copy]: it either ends while it plans, with
    [EOFError] or [IndexError] and the disk as it was, or it runs the copy loop over the plan of the source tree, from
    a world in which the disk is still as it was. *)
Lemma do_copy_phases (source target : string) (w : World) :
  let r := do_copy cwd ditto source target w in
  (planned (plain_line cwd) w (snd r)
   /\ exists e, fst r = Raise e /\ (e = EOFError \/ e = IndexError))
  \/ exists (copy_list : list (string * string)) (w1 : World),
       planned (plain_line cwd) w w1
       /\ r = copy_loop cwd ditto copy_list 0 0 w1
       /\ exists n,
            FS.stat cwd (fs w) source = Some n
            /\ copy_list_of cwd (abspath target) (abspath source)
                 (source_list_of cwd (walk_node cwd (fs w) source n))
               = Ok copy_list.
Proof.
  intros r. subst r.
  remember (do_copy cwd ditto source target w) as r eqn:Er.
  unfold do_copy in Er. unfold bind at 1 in Er. unfold os_walk in Er.
  destruct (FS.stat cwd (fs w) source) as [n|] eqn:Estat.
  2:{ left. subst r. split; [apply planned_refl|]. exists IndexError.
      split; [reflexivity | right; reflexivity]. }
  destruct (walk_node cwd (fs w) source n) as [|first tree'] eqn:Ewalk.
  { left. subst r. split; [apply planned_refl|]. exists IndexError.
    split; [reflexivity | right; reflexivity]. }
  assert (Hfirst : fst (fst first) = source).
  { destruct n; try discriminate Ewalk. cbn [walk_node] in Ewalk.
    injection Ewalk as <- _. reflexivity. }
  rewrite Hfirst in Er. set (tree := first :: tree') in *.
  unfold bind at 1 in Er. cbn [print sys_stdout_write fst snd] in Er.
  unfold bind at 1 in Er. cbn [print sys_stdout_write fst snd] in Er.
  set (w2 := mkWorld _ _ _ _ _) in Er.
  assert (H2 : planned (plain_line cwd) w w2).
  { eapply planned_trans;
      [apply (planned_print _ ("Source directory: " ++ abspath source)) | 
       apply (planned_print _ ("Found "
                ++ str_of_Z (Z.of_nat (List.length (source_list_of cwd tree)))
                ++ " directories..."))];
      intros _; reflexivity. }
  unfold bind at 1 in Er.
  destruct (print_source_list_planned (source_list_of cwd tree)
              (source_list_absolute tree) 0 w2) as ((total & Hok) & H3).
  destruct (print_source_list (source_list_of cwd tree) 0 w2)
    as [r3 w3]. cbn [fst snd] in Hok, H3. subst r3.
  unfold bind at 1 in Er. cbn [print sys_stdout_write fst snd] in Er.
  set (w4 := mkWorld _ _ _ _ _) in Er.
  assert (H4 : planned (plain_line cwd) w w4).
  { eapply planned_trans; [exact H2|]. eapply planned_trans; [exact H3|].
    apply (planned_print _ ("Total " ++ str_of_Z total ++ " files.")).
    intros _. reflexivity. }
  unfold bind at 1 in Er.
  pose proof (query_yes_no_planned w4) as H5.
  destruct (query_yes_no "Continue? [y|n]" w4) as [[answer|e] w5] eqn:Eq;
    cbn [fst snd] in H5.
  2:{ left. subst r. cbn [fst snd].
      split; [eapply planned_trans; eassumption|]. exists e.
      split; [reflexivity|].
      eapply (query_yes_no_exn "Continue? [y|n]" (stdin w4) w4).
      unfold query_yes_no in Eq. rewrite Eq. reflexivity. }
  rewrite (query_yes_no_not_False _ _ _ _ Eq) in Er.
  assert (H5' : planned (plain_line cwd) w w5)
    by (eapply planned_trans; eassumption).
  unfold bind at 1, lift in Er.
  destruct (copy_list_of cwd (abspath target) (abspath source)
              (source_list_of cwd tree)) as [copy_list|e] eqn:Eplan.
  2:{ exfalso.
      destruct (copy_list_of_spec cwd (abspath target) (abspath source)
                  (source_list_of cwd tree)) as (l & Hl & _).
      - eapply Forall_impl; [|apply source_list_absolute].
        intros d (p & ->). apply abspath_nonempty.
      - congruence. }
  unfold bind at 1 in Er. cbn [print sys_stdout_write fst snd] in Er.
  set (w6 := mkWorld _ _ _ _ _) in Er.
  assert (H6 : planned (plain_line cwd) w w6).
  { eapply planned_trans; [exact H5'|].
    apply (planned_print _ ("Target directory: " ++ abspath target)).
    intros _. reflexivity. }
  unfold bind at 1 in Er.
  destruct (print_copy_list_planned copy_list w6) as (Hok7 & H7).
  destruct (print_copy_list copy_list w6) as [r7 w7].
  cbn [fst snd] in Hok7, H7. subst r7.
  unfold bind at 1 in Er.
  pose proof (query_yes_no_planned w7) as H8.
  destruct (query_yes_no "Continue? [y|n]" w7) as [[answer'|e] w8] eqn:Eq';
    cbn [fst snd] in H8.
  2:{ left. subst r. cbn [fst snd].
      split; [eapply planned_trans; [exact H6|];
              eapply planned_trans; eassumption|].
      exists e. split; [reflexivity|].
      eapply (query_yes_no_exn "Continue? [y|n]" (stdin w7) w7).
      unfold query_yes_no in Eq'. rewrite Eq'. reflexivity. }
  rewrite (query_yes_no_not_False _ _ _ _ Eq') in Er.
  right. exists copy_list, w8.
  split; [eapply planned_trans; [exact H6|]; eapply planned_trans; eassumption|].
  split; [exact Er|]. exists n. split; [reflexivity|].
  rewrite Ewalk. exact Eplan.
Qed.

Lemma after_planning_same (w : World) : after_planning (stdin w) [] w = w.
Proof.
  destruct w as [f i o l e]. unfold after_planning.
  cbn [fs stdin stdout logfile events]. rewrite app_nil_r.
  destruct l as [l|]; cbn [option_map]; [rewrite app_nil_r|]; reflexivity.
Qed.

Lemma after_planning_twice (rest1 rest2 texts1 texts2 : list string)
    (w : World) :
  after_planning rest2 texts2 (after_planning rest1 texts1 w)
  = after_planning rest2 (texts1 ++ texts2) w.
Proof.
  unfold after_planning. cbn [fs stdin stdout logfile events].
  rewrite <- app_assoc, option_map_app. reflexivity.
Qed.

Lemma print_run (line : string) (w : World) :
  print line w = (Ok tt, after_planning (stdin w) [(line ++ NL)%string] w).
Proof. reflexivity. Qed.

Lemma print_source_list_run (source_list : list (string * Z)) :
  forall (file_count : Z) (w : World),
    print_source_list source_list file_count w
    = (Ok (file_count + total (map snd source_list)),
       after_planning (stdin w) (source_lines source_list) w).
Proof.
  induction source_list as [|d l IH]; intros file_count w.
  - cbn [print_source_list map total fold_right source_lines]. unfold ret.
    rewrite Z.add_0_r, after_planning_same. reflexivity.
  - cbn [print_source_list]. unfold bind. rewrite print_run, IH.
    rewrite after_planning_twice.
    cbn [map total fold_right source_lines app stdin after_planning].
    rewrite Z.add_assoc. reflexivity.
Qed.

Lemma print_copy_list_run (copy_list : list (string * string)) :
  forall w : World,
    print_copy_list copy_list w
    = (Ok tt,
       after_planning (stdin w)
         (map (fun entry => (will_copy_line entry ++ NL)%string) copy_list) w).
Proof.
  induction copy_list as [|entry l IH]; intros w.
  - cbn [print_copy_list map]. unfold ret.
    rewrite after_planning_same. reflexivity.
  - cbn [print_copy_list]. unfold bind. rewrite print_run, IH.
    rewrite after_planning_twice. reflexivity.
Qed.

Lemma query_yes_no_run (question line : string) (skipped rest : list string)
    (c : ascii) (w : World) :
  stdin w = skipped ++ line :: rest ->
  Forall rejected skipped -> accepted line c ->
  query_yes_no question w
  = (Ok (VStr (String c EmptyString)),
     after_planning rest (prompts question skipped) w).
Proof.
  intros Hstdin Hskipped Hline. unfold query_yes_no. rewrite Hstdin.
  apply query_yes_no_on_accepts; assumption.
Qed.

(** The planning of [do_copy], step by step: with a directory at the
    source and an answer at each gate, [do_copy] is its copy loop over the
    copy list of the walk, started once the preview of that very list was
    written. *)
Lemma do_copy_plan (source target : string) (w : World)
    (es : list (string * node)) (skipped1 skipped2 rest : list string)
    (line1 line2 : string) (c1 c2 : ascii) :
  FS.stat cwd (fs w) source = Some (Dir es) ->
  stdin w = skipped1 ++ line1 :: skipped2 ++ line2 :: rest ->
  Forall rejected skipped1 -> accepted line1 c1 ->
  Forall rejected skipped2 -> accepted line2 c2 ->
  let source_list :=
    source_list_of cwd (walk_node cwd (fs w) source (Dir es)) in
  exists copy_list : list (string * string),
    copy_list_of cwd (abspath target) (abspath source) source_list
    = Ok copy_list
    /\ do_copy cwd ditto source target w
       = copy_loop cwd ditto copy_list 0 0
           (after_planning rest
              (preview (abspath source) (abspath target) source_list
                 copy_list skipped1 skipped2) w).
Proof.
  intros Hstat Hstdin Hs1 Ha1 Hs2 Ha2 source_list.
  destruct (copy_list_of_spec cwd (abspath target) (abspath source) source_list)
    as (copy_list & Hplan & _).
  { eapply Forall_impl; [|apply source_list_absolute].
    intros d (p & ->). apply abspath_nonempty. }
  exists copy_list. split; [exact Hplan|].
  assert (Hfirst : exists first tree',
             walk_node cwd (fs w) source (Dir es) = first :: tree'
             /\ fst (fst first) = source).
  { cbn [walk_node]. eexists. eexists. split; reflexivity. }
  destruct Hfirst as (first & tree' & Ewalk & Hfirst).
  unfold do_copy. unfold bind at 1. unfold os_walk. rewrite Hstat.
  subst source_list. revert Hplan. rewrite Ewalk. intros Hplan.
  rewrite Hfirst. set (source_list := source_list_of cwd (first :: tree')) in *.
  unfold bind at 1. rewrite print_run.
  unfold bind at 1. rewrite print_run, after_planning_twice.
  unfold bind at 1. rewrite print_source_list_run, after_planning_twice.
  unfold bind at 1. rewrite print_run, after_planning_twice.
  unfold bind at 1.
  cbn [stdin after_planning].
  rewrite (query_yes_no_run "Continue? [y|n]" line1 skipped1
             (skipped2 ++ line2 :: rest) c1) by (assumption || exact Hstdin).
  rewrite after_planning_twice. cbn [py_eq].
  unfold bind at 1, lift. rewrite Hplan.
  unfold bind at 1. rewrite print_run, after_planning_twice.
  unfold bind at 1. rewrite print_copy_list_run, after_planning_twice.
  unfold bind at 1.
  rewrite (query_yes_no_run "Continue? [y|n]" line2 skipped2 rest c2)
    by (assumption || reflexivity).
  rewrite after_planning_twice. cbn [py_eq].
  unfold preview. rewrite Z.add_0_l, <- !app_assoc. reflexivity.
Qed.

End Planning.

(** ** Whole runs *)

Section Runs.

Variable cwd : string.
Variable asctime : string.
Variable ditto : node -> string -> string -> ditto_outcome.

Local Abbreviation join := posixpath.join.
Local Abbreviation abspath := (posixpath.abspath cwd).

(** X3.  When the source is the empty path or does not lead to a
    directory, [os.walk] yields nothing and [do_copy] raises [IndexError]
    on [tree[0]]: before it has printed, asked or touched anything. *)
Theorem do_copy_source_not_a_directory
    (source target : string) (w : World)
    (Hsource : source = EmptyString \/ FS.isdir cwd (fs w) source = false) :
  do_copy cwd ditto source target w = (Raise IndexError, w).
Proof.
  unfold do_copy, bind, os_walk. destruct Hsource as [-> | Hsource].
  - reflexivity.
  - unfold FS.isdir in Hsource.
    destruct (FS.stat cwd (fs w) source) as [[c|es|t|]|];
      try reflexivity. discriminate Hsource.
Qed.

(** X4.  Nothing is copied, created or opened for a checksum before both
    gates are passed: when [do_copy] ends with [EOFError] or [IndexError],
    as it does when the input ends or an empty line is typed at a gate, the
    file system and the events are as they were. *)
Theorem do_copy_planning_is_read_only
    (source target : string) (w : World) (e : exn)
    (Hraise : fst (do_copy cwd ditto source target w) = Raise e)
    (He : e = EOFError \/ e = IndexError) :
  same_disk w (snd (do_copy cwd ditto source target w)).
Proof.
  destruct (do_copy_phases cwd ditto source target w)
    as [((Hdisk & _) & _) | (copy_list & w1 & (Hdisk & _) & Hrun & _)];
    [exact Hdisk|].
  exfalso. cbv zeta in Hrun. rewrite Hrun in Hraise.
  destruct (copy_loop_effects cwd ditto copy_list 0 0 w1) as (new & added & _ & Hres).
  rewrite Hraise in Hres. destruct He as [-> | ->]; exact Hres.
Qed.

(** X5.  The exceptions that leave a transfer are [IOError] and [OSError]
    and no other: of [copy_file], of [copy_dir] and of the loop of
    [do_copy]; and an exception of [do_copy] that is one of these two comes
    from the loop, after both gates. *)
Theorem transfer_exceptions_are_io_or_os
    (source target : string) (copy_list : list (string * string))
    (fc ec : Z) (w : World) (e : exn) :
  (fst (copy_file cwd ditto source target w) = Raise e -> io_or_os e)
  /\ (fst (copy_dir cwd ditto source target w) = Raise e -> io_or_os e)
  /\ (fst (copy_loop cwd ditto copy_list fc ec w) = Raise e -> io_or_os e)
  /\ (fst (do_copy cwd ditto source target w) = Raise e ->
      io_or_os e \/ e = EOFError \/ e = IndexError).
Proof.
  split; [|split; [|split]].
  - intros H.
    destruct (copy_file_effects cwd ditto source target w)
      as (opens & verdict & _ & _ & _ & _ & _ & Hres).
    rewrite H in Hres. apply Hres.
  - intros H.
    destruct (copy_dir_effects cwd ditto source target w)
      as (new & added & _ & _ & Hres).
    rewrite H in Hres. exact Hres.
  - intros H.
    destruct (copy_loop_effects cwd ditto copy_list fc ec w)
      as (new & added & _ & Hres).
    rewrite H in Hres. exact Hres.
  - intros H.
    destruct (do_copy_phases cwd ditto source target w)
      as [(_ & e' & He' & Hn) | (plan & w1 & _ & Hrun & _)].
    + rewrite H in He'. injection He' as <-. right. exact Hn.
    + left. cbv zeta in Hrun. rewrite Hrun in H.
      destruct (copy_loop_effects cwd ditto plan 0 0 w1)
        as (new & added & _ & Hres).
      rewrite H in Hres. exact Hres.
Qed.

(** X6.  [copy_dir] calls [os.mkdir] on its target exactly when it has
    found no regular file, and then once: a directory whose files were all
    tried and all failed gets no [os.mkdir]. *)
Theorem copy_dir_mkdir_only_without_files
    (source target : string) (w : World) (fc ec : Z)
    (Hret : fst (copy_dir cwd ditto source target w) = Ok (fc, ec)) :
  mkdirs (events (snd (copy_dir cwd ditto source target w)))
  = mkdirs (events w) ++ (if fc =? 0 then [EvMkdir target] else []).
Proof.
  destruct (copy_dir_effects cwd ditto source target w)
    as (new & added & (Hev & _) & _ & Hres).
  rewrite Hret in Hres. destruct Hres as (_ & _ & Hm).
  rewrite Hev, mkdirs_app, Hm. reflexivity.
Qed.

(** X7.  The file total [do_copy] returns is the number of [ditto] runs of
    the run, and the error total is the number of [FAILED] reports written,
    on the console and in the log. *)
Theorem totals_match_the_record
    (source target : string) (w : World) (F E : Z)
    (Hcwd : posixpath.isabs cwd = true)
    (Hret : fst (do_copy cwd ditto source target w) = Ok (F, E)) :
  let w' := snd (do_copy cwd ditto source target w) in
  Z.of_nat (List.length (dittos (events w')))
  = Z.of_nat (List.length (dittos (events w))) + F
  /\ Z.of_nat (List.length (failed_lines (stdout w')))
     = Z.of_nat (List.length (failed_lines (stdout w))) + E
  /\ forall l, logfile w = Some l ->
       exists l', logfile w' = Some l'
         /\ Z.of_nat (List.length (failed_lines l'))
            = Z.of_nat (List.length (failed_lines l)) + E.
Proof.
  intros w'. subst w'.
  destruct (do_copy_phases cwd ditto source target w)
    as [(_ & e & He & _) | (plan & w1 & ((Hfs & Hev) & Hem) & Hrun & _)].
  { rewrite Hret in He. discriminate He. }
  cbv zeta in Hrun. rewrite Hrun in *.
  destruct Hem as (pre & Hout1 & Hlog1 & Hpre).
  assert (Hplain : failed_lines pre = []).
  { clear - Hpre Hcwd. induction Hpre as [|x l Hx _ IH]; [reflexivity|].
    cbn [failed_lines filter]. rewrite (Hx Hcwd). exact IH. }
  destruct (copy_loop_effects cwd ditto plan 0 0 w1)
    as (new & added & (Hev2 & Hout2 & Hlog2 & _) & Hres).
  rewrite Hret in Hres. destruct Hres as (HF & HE).
  split; [|split].
  - rewrite Hev2, Hev, dittos_length_app. lia.
  - rewrite Hout2, Hout1, !failed_lines_app, !length_app, Hplain.
    cbn [List.length]. lia.
  - intros l Hl. rewrite Hlog2, Hlog1, Hl. cbn [option_map].
    eexists. split; [reflexivity|].
    rewrite !failed_lines_app, !length_app, Hplain. cbn [List.length]. lia.
Qed.

(** X8.  [copy_dir] keeps the names: every [ditto] it runs goes from an
    entry of the listing to the same name under the target, the only files
    it opens are the two files of such a transfer, and the only directory
    it creates is the target. *)
Theorem copy_dir_keeps_names
    (source target : string) (w : World) (names : list string)
    (Hlist : FS.listdir cwd (fs w) source = Ok names) :
  exists new : list event,
    events (snd (copy_dir cwd ditto source target w)) = events w ++ new
    /\ Forall (fun e => e = EvMkdir target
                        \/ entry_event source target names e) new.
Proof.
  destruct (copy_dir_effects cwd ditto source target w)
    as (new & added & (Hev & _) & Hshape & _).
  exists new. split; [exact Hev | apply Hshape; exact Hlist].
Qed.

Lemma do_copy_wrote_in_step (source target : string) (w : World)
    (l : list string) :
  logfile w = Some l ->
  exists added : list string,
    stdout (snd (do_copy cwd ditto source target w)) = stdout w ++ added
    /\ logfile (snd (do_copy cwd ditto source target w)) = Some (l ++ added).
Proof.
  intros Hlog.
  destruct (do_copy_phases cwd ditto source target w)
    as [((_ & (pre & Hout & Hl & _)) & _)
       | (plan & w1 & (_ & (pre & Hout & Hl & _)) & Hrun & _)].
  - exists pre. rewrite Hout, Hl, Hlog. split; reflexivity.
  - cbv zeta in Hrun. rewrite Hrun.
    destruct (copy_loop_effects cwd ditto plan 0 0 w1)
      as (new & added & (_ & Hout2 & Hlog2 & _) & _).
    exists (pre ++ added).
    rewrite Hout2, Hout, Hlog2, Hl, Hlog, <- !app_assoc. cbn [option_map].
    split; [reflexivity|]. rewrite <- app_assoc. reflexivity.
Qed.

(** X9.  Whatever [do_copy] does and however it ends, what it writes goes
    to the console and to the open log alike, the prompts of the gates
    included: the log grows by the text the console grows by. *)
Theorem do_copy_console_and_log_in_step
    (source target : string) (w : World) (l : list string)
    (Hlog : logfile w = Some l) :
  exists added : list string,
    stdout (snd (do_copy cwd ditto source target w)) = stdout w ++ added
    /\ logfile (snd (do_copy cwd ditto source target w)) = Some (l ++ added).
Proof. apply do_copy_wrote_in_step. exact Hlog. Qed.

(** X10.  The loop of [do_copy] over a plan in two parts is the loop over
    the first part followed by the loop over the second, with the totals
    carried over; an exception in the first part ends the run and leaves
    the second part untouched. *)
Theorem copy_loop_app (l1 l2 : list (string * string)) :
  forall (fc ec : Z) (w : World),
    copy_loop cwd ditto (l1 ++ l2) fc ec w
    = match copy_loop cwd ditto l1 fc ec w with
      | (Ok (files, errors), w1) => copy_loop cwd ditto l2 files errors w1
      | (Raise e, w1) => (Raise e, w1)
      end.
Proof.
  induction l1 as [|[source target] rest IH]; intros fc ec w.
  - reflexivity.
  - cbn [app]. rewrite !copy_loop_cons.
    destruct (copy_dir cwd ditto source target w) as [[[files errors]|e] w1];
      [apply IH | reflexivity].
Qed.

(** [do_main] with two arguments, step by step. *)
Lemma do_main_run (argv : list string) (w : World) :
  List.length argv = 3%nat ->
  do_main cwd asctime ditto argv w
  = let w0 := snd (print (banner_line asctime) w) in
    match FS.open_w cwd (fs w) (log_name asctime) with
    | Raise e => (Raise e, record (EvCreate (log_name asctime)) w0)
    | Ok fs' =>
        let w1 := mkWorld fs' (stdin w0) (stdout w0) (Some [])
                    (events w0 ++ [EvCreate (log_name asctime)]) in
        match do_copy cwd ditto (nth 1 argv ""%string) (nth 2 argv ""%string) w1
        with
        | (Ok (F, E), w2) => (Ok VNone, snd (print (all_done_line F E) w2))
        | (Raise e, w2) => (Raise e, w2)
        end
    end.
Proof.
  intros Hargs. unfold do_main. unfold bind at 1.
  cbn [print sys_stdout_write fst snd]. rewrite Hargs. cbn [Nat.eqb negb].
  unfold bind at 1, open_log. fold (log_name asctime).
  cbn [fs stdin stdout logfile events record].
  destruct (FS.open_w cwd (fs w) (log_name asctime)) as [fs'|e];
    [|reflexivity].
  cbv zeta. unfold bind at 1.
  destruct (do_copy cwd ditto (nth 1 argv ""%string) (nth 2 argv ""%string) _)
    as [[[F E]|e] w2]; reflexivity.
Qed.

(** X11.  With two arguments [do_main] prints the banner and opens the log
    before anything else is done.  When the log cannot be opened the [IOError] ends the run
    there.  Otherwise the log holds, in order, all that is written to the
    console after the banner line, which goes to the console alone; and
    when [do_main] returns, it returns [None] and the last line written is
    the line with the totals. *)
Theorem do_main_log_follows_the_console
    (argv : list string) (w : World)
    (Hargs : List.length argv = 3%nat) :
  let r := do_main cwd asctime ditto argv w in
  let w0 := snd (print (banner_line asctime) w) in
  match FS.open_w cwd (fs w) (log_name asctime) with
  | Raise e => r = (Raise e, record (EvCreate (log_name asctime)) w0)
  | Ok fs' =>
      exists added : list string,
        stdout (snd r)
        = stdout w ++ (banner_line asctime ++ NL)%string :: added
        /\ logfile (snd r) = Some added
        /\ forall v, fst r = Ok v ->
             v = VNone
             /\ exists (F E : Z) (before : list string),
                  0 <= E <= F
                  /\ added = before ++ [(all_done_line F E ++ NL)%string]
  end.
Proof.
  intros r w0. subst r. rewrite (do_main_run argv w Hargs). cbv zeta.
  fold w0.
  destruct (FS.open_w cwd (fs w) (log_name asctime)) as [fs'|e];
    [|reflexivity].
  set (w1 := mkWorld fs' _ _ _ _).
  destruct (do_copy_wrote_in_step (nth 1 argv ""%string) (nth 2 argv ""%string)
              w1 [] eq_refl) as (added & Hout & Hlog).
  pose proof (do_copy_counts cwd ditto (nth 1 argv ""%string)
                (nth 2 argv ""%string) w1) as Hb.
  destruct (do_copy cwd ditto (nth 1 argv ""%string) (nth 2 argv ""%string) w1)
    as [[[F E]|e] w2]; cbn [fst snd] in *.
  - exists (added ++ [(all_done_line F E ++ NL)%string]).
    cbn [print sys_stdout_write fst snd stdout logfile].
    rewrite Hout, Hlog. subst w1 w0. cbn [print sys_stdout_write snd stdout].
    split; [rewrite <- !app_assoc; reflexivity|]. split; [reflexivity|].
    intros v Hv. injection Hv as <-. split; [reflexivity|].
    exists F, E, added. split; [apply Hb; reflexivity | reflexivity].
  - exists added. rewrite Hout, Hlog. subst w1 w0.
    cbn [print sys_stdout_write snd stdout].
    split; [rewrite <- app_assoc; reflexivity|]. split; [reflexivity|].
    intros v Hv. discriminate Hv.
Qed.

(** X16.  The plan that is shown is the plan that is run: with a
    directory at the source and an answer at each gate, [do_copy] is the
    copy loop over the copy list of the walk of the source, started with
    zero totals once the preview was written, which holds, after the lines
    of the source directories and the first gate, one [Will copy] line for
    each pair of that very list, in its order.  By then the lines typed at
    the gates were read, and the file system and the events are as they
    were. *)
Theorem do_copy_runs_the_plan
    (source target : string) (w : World) (es : list (string * node))
    (skipped1 skipped2 rest : list string) (line1 line2 : string)
    (c1 c2 : ascii)
    (Hsource : FS.stat cwd (fs w) source = Some (Dir es))
    (Hstdin : stdin w = skipped1 ++ line1 :: skipped2 ++ line2 :: rest)
    (Hskipped1 : Forall rejected skipped1) (Hline1 : accepted line1 c1)
    (Hskipped2 : Forall rejected skipped2) (Hline2 : accepted line2 c2) :
  let source_list :=
    source_list_of cwd (walk_node cwd (fs w) source (Dir es)) in
  exists copy_list : list (string * string),
    copy_list_of cwd (abspath target) (abspath source) source_list
    = Ok copy_list
    /\ do_copy cwd ditto source target w
       = copy_loop cwd ditto copy_list 0 0
           (after_planning rest
              (preview (abspath source) (abspath target) source_list
                 copy_list skipped1 skipped2) w).
Proof.
  exact (do_copy_plan cwd ditto source target w es skipped1 skipped2 rest
           line1 line2 c1 c2 Hsource Hstdin Hskipped1 Hline1
           Hskipped2 Hline2).
Qed.



End Runs.

(** ** The answers at the gates *)

Section Gates.

Variable cwd : string.
Variable ditto : node -> string -> string -> ditto_outcome.

Lemma set_stdin_same (w : World) : set_stdin (stdin w) w = w.
Proof. destruct w. reflexivity. Qed.

Lemma blind_stdin {A} (m : M A) (w : World) :
  stdin_blind m -> stdin (snd (m w)) = stdin w.
Proof.
  intros H. specialize (H (stdin w) w). rewrite set_stdin_same in H.
  rewrite H at 1. reflexivity.
Qed.

Lemma same_but_stdin_refl (w : World) : same_but_stdin w w.
Proof. repeat split. Qed.

Lemma same_but_stdin_set (l : list string) (w : World) :
  same_but_stdin w (set_stdin l w).
Proof. repeat split. Qed.

Lemma alike_blind_bind {A B} (S L : list string) (m : M A) (k k' : A -> M B) :
  stdin_blind m ->
  (forall a, alike S L (k a) (k' a)) ->
  alike S L (bind m k) (bind m k').
Proof.
  intros Hm Hk W HS. unfold bind. rewrite (Hm L W).
  pose proof (blind_stdin m W Hm) as Hin.
  destruct (m W) as [[a|e] W1]; cbn [fst snd] in *.
  - apply Hk. congruence.
  - split; [reflexivity | apply same_but_stdin_set].
Qed.

Lemma alike_raise {B} (S L : list string) (e : exn) :
  alike S L (@raise B e) (raise e).
Proof. intros W _. split; [reflexivity | apply same_but_stdin_set]. Qed.

Lemma alike_same {B} (S : list string) (c : M B) : alike S S c c.
Proof.
  intros W HS. rewrite <- HS, set_stdin_same.
  split; [reflexivity | apply same_but_stdin_refl].
Qed.

(** A gate of [do_copy] goes on in the same way after any accepted line. *)
Lemma alike_gate {B} (S L : list string) (line line' : string) (c c' : ascii)
    (question : string) (X Y : M B) :
  accepted line c -> accepted line' c' ->
  alike S L Y Y ->
  alike (line :: S) (line' :: L)
    (bind (query_yes_no question)
          (fun answer => if py_eq answer (VBool false) then X else Y))
    (bind (query_yes_no question)
          (fun answer => if py_eq answer (VBool false) then X else Y)).
Proof.
  intros Hl Hl' HY W HS. unfold bind, query_yes_no.
  cbn [set_stdin stdin]. rewrite HS.
  pose proof (query_yes_no_on_accepts question line S c [] (Forall_nil _)
                Hl W) as E.
  pose proof (query_yes_no_on_accepts question line' L c' [] (Forall_nil _)
                Hl' (set_stdin (line' :: L) W)) as E'.
  cbn [app] in E, E'. rewrite E, E'. clear E E'.
  assert (Hc : forall x, x = "y"%char \/ x = "n"%char ->
               py_eq (VStr (String x "")) (VBool false) = false).
  { intros x [-> | ->]; reflexivity. }
  destruct Hl as (s & _ & Hc1). destruct Hl' as (s' & _ & Hc2).
  rewrite (Hc c Hc1), (Hc c' Hc2).
  cbn [set_stdin fs stdin stdout logfile events].
  set (W1 := mkWorld (fs W) S _ _ _).
  apply (HY W1). reflexivity.
Qed.

Lemma blind_write (text : string) : stdin_blind (sys_stdout_write text).
Proof. intros l w. reflexivity. Qed.

Lemma blind_print (line : string) : stdin_blind (print line).
Proof. apply blind_write. Qed.

Lemma blind_ret {A} (a : A) : stdin_blind (ret a).
Proof. intros l w. reflexivity. Qed.

Lemma blind_lift {A} (r : result A) : stdin_blind (lift r).
Proof. intros l w. reflexivity. Qed.

Lemma blind_bind {A B} (m : M A) (k : A -> M B) :
  stdin_blind m -> (forall a, stdin_blind (k a)) -> stdin_blind (bind m k).
Proof.
  intros Hm Hk l w. unfold bind. rewrite (Hm l w).
  destruct (m w) as [[a|e] w1]; cbn [fst snd]; [apply Hk | reflexivity].
Qed.

Lemma blind_os_walk (source : string) : stdin_blind (os_walk cwd source).
Proof.
  intros l w. unfold os_walk. cbn [set_stdin fs].
  destruct (FS.stat cwd (fs w) source); reflexivity.
Qed.

Lemma blind_print_source_list (source_list : list (string * Z)) :
  forall file_count, stdin_blind (print_source_list source_list file_count).
Proof.
  induction source_list as [|d l IH]; intros file_count;
    cbn [print_source_list].
  - apply blind_ret.
  - apply blind_bind; [apply blind_print | intros _; apply IH].
Qed.

Lemma blind_print_copy_list (copy_list : list (string * string)) :
  stdin_blind (print_copy_list copy_list).
Proof.
  induction copy_list as [|d l IH]; cbn [print_copy_list].
  - apply blind_ret.
  - apply blind_bind; [apply blind_print | intros _; exact IH].
Qed.

Lemma do_copy_alike (source target : string) (line1 line2 line1' line2' : string)
    (c1 c2 c1' c2' : ascii) (rest : list string) :
  accepted line1 c1 -> accepted line2 c2 ->
  accepted line1' c1' -> accepted line2' c2' ->
  alike (line1 :: line2 :: rest) (line1' :: line2' :: rest)
    (do_copy cwd ditto source target) (do_copy cwd ditto source target).
Proof.
  intros H1 H2 H1' H2'. unfold do_copy.
  apply alike_blind_bind; [apply blind_os_walk|]. intros [|first tree'].
  - apply alike_raise.
  - apply alike_blind_bind; [apply blind_print|]. intros _.
    apply alike_blind_bind; [apply blind_print|]. intros _.
    apply alike_blind_bind; [apply blind_print_source_list|]. intros total.
    apply alike_blind_bind; [apply blind_print|]. intros _.
    apply (alike_gate _ _ line1 line1' c1 c1'); [exact H1 | exact H1'|].
    apply alike_blind_bind; [apply blind_lift|]. intros copy_list.
    apply alike_blind_bind; [apply blind_print|]. intros _.
    apply alike_blind_bind; [apply blind_print_copy_list|]. intros _.
    apply (alike_gate _ _ line2 line2' c2 c2'); [exact H2 | exact H2'|].
    apply alike_same.
Qed.

(** X12.  What the operator answers at the gates makes no difference: two
    runs of [do_copy] on worlds that differ only in the two lines typed at
    the gates, each of them a line that [query_yes_no] accepts, end with
    the same result, the same file system, the same events and the same
    output. *)
Theorem do_copy_ignores_the_answers
    (source target : string) (w : World)
    (line1 line2 line1' line2' : string) (c1 c2 c1' c2' : ascii)
    (rest : list string)
    (Hstdin : stdin w = line1 :: line2 :: rest)
    (H1 : accepted line1 c1) (H2 : accepted line2 c2)
    (H1' : accepted line1' c1') (H2' : accepted line2' c2') :
  let r := do_copy cwd ditto source target w in
  let r' := do_copy cwd ditto source target
              (set_stdin (line1' :: line2' :: rest) w) in
  fst r = fst r' /\ same_but_stdin (snd r) (snd r').
Proof.
  intros r r'.
  apply (do_copy_alike source target line1 line2 line1' line2'
           c1 c2 c1' c2' rest H1 H2 H1' H2' w Hstdin).
Qed.

End Gates.

(** ** The [tee] class *)

Section Tee.

Lemma fileobj_eqb_refl (f : fileobj) : fileobj_eqb f f = true.
Proof. destruct f; cbn; [reflexivity | reflexivity | apply String.eqb_refl]. Qed.

Lemma fileobj_eqb_eq (f g : fileobj) : fileobj_eqb f g = true <-> f = g.
Proof.
  split; [|intros ->; apply fileobj_eqb_refl].
  destruct f, g; cbn; try discriminate; try reflexivity.
  intros H. apply String.eqb_eq in H. congruence.
Qed.

Lemma fileobj_eqb_sym (f g : fileobj) : fileobj_eqb f g = fileobj_eqb g f.
Proof.
  destruct (fileobj_eqb f g) eqn:E.
  - apply fileobj_eqb_eq in E. subst. symmetry. apply fileobj_eqb_refl.
  - destruct (fileobj_eqb g f) eqn:E'; [|reflexivity].
    apply fileobj_eqb_eq in E'. subst. rewrite fileobj_eqb_refl in E.
    discriminate E.
Qed.

Lemma put_file_same (f : fileobj) (s : filestate) (fl : Files) :
  put_file f s fl f = s.
Proof. unfold put_file. rewrite fileobj_eqb_refl. reflexivity. Qed.

Lemma put_file_other (f g : fileobj) (s : filestate) (fl : Files) :
  fileobj_eqb g f = false -> put_file f s fl g = fl g.
Proof. unfold put_file. intros ->. reflexivity. Qed.

(** One [write] to two different open files. *)
Lemma tee_write_open (self : tee.t) (text : string) (fl : Files) :
  fileobj_eqb (tee.fd1 self) (tee.fd2 self) = false ->
  closed (fl (tee.fd1 self)) = false ->
  closed (fl (tee.fd2 self)) = false ->
  exists fl',
    tee.write self text fl = (Ok tt, fl')
    /\ fl' (tee.fd1 self)
       = mk_filestate (written (fl (tee.fd1 self)) ++ [text]) false
    /\ fl' (tee.fd2 self)
       = mk_filestate (written (fl (tee.fd2 self)) ++ [text]) false
    /\ forall g, fileobj_eqb g (tee.fd1 self) = false ->
                 fileobj_eqb g (tee.fd2 self) = false -> fl' g = fl g.
Proof.
  intros Hne H1 H2. unfold tee.write, file_write. rewrite H1.
  rewrite put_file_other by (rewrite fileobj_eqb_sym; exact Hne).
  rewrite H2. eexists. split; [reflexivity|].
  split; [|split].
  - rewrite put_file_other by exact Hne. apply put_file_same.
  - apply put_file_same.
  - intros g Hg1 Hg2. rewrite !put_file_other by assumption. reflexivity.
Qed.

(** X13.  A [tee] over two different open files keeps them in step: after
    any number of [write] calls each of the two files holds what it held
    followed by the texts in the order written, both are still open, and no
    other file is touched. *)
Theorem tee_write_keeps_files_in_step
    (self : tee.t) (texts : list string) (fl : Files)
    (Hdistinct : fileobj_eqb (tee.fd1 self) (tee.fd2 self) = false)
    (Hopen1 : closed (fl (tee.fd1 self)) = false)
    (Hopen2 : closed (fl (tee.fd2 self)) = false) :
  let r := tee.write_all self texts fl in
  fst r = Ok tt
  /\ snd r (tee.fd1 self)
     = mk_filestate (written (fl (tee.fd1 self)) ++ texts) false
  /\ snd r (tee.fd2 self)
     = mk_filestate (written (fl (tee.fd2 self)) ++ texts) false
  /\ forall g, fileobj_eqb g (tee.fd1 self) = false ->
               fileobj_eqb g (tee.fd2 self) = false -> snd r g = fl g.
Proof.
  revert fl Hopen1 Hopen2.
  induction texts as [|text rest IH]; intros fl Hopen1 Hopen2 r; subst r.
  - cbn. rewrite !app_nil_r.
    destruct (fl (tee.fd1 self)) as [w1 c1] eqn:E1.
    destruct (fl (tee.fd2 self)) as [w2 c2] eqn:E2.
    cbn in Hopen1, Hopen2. subst. repeat split.
  - cbn [tee.write_all].
    destruct (tee_write_open self text fl Hdistinct Hopen1 Hopen2)
      as (fl1 & -> & H1 & H2 & Hother).
    specialize (IH fl1). rewrite H1, H2 in IH. cbn [closed written] in IH.
    destruct (IH eq_refl eq_refl) as (Hr & Hw1 & Hw2 & Ho).
    split; [exact Hr|].
    split; [rewrite Hw1, <- app_assoc; reflexivity|].
    split; [rewrite Hw2, <- app_assoc; reflexivity|].
    intros g Hg1 Hg2. rewrite Ho by assumption. apply Hother; assumption.
Qed.

(** X14.  [__del__] spares a file only when it is the very object
    [sys.stdout] or [sys.stderr] is bound to.  Once [sys.stdout] is bound
    to the [tee] itself, as [do_main] leaves it, [__del__] closes both
    files of the [tee], the saved console stream included, and a later
    [write] or [flush] raises [ValueError]; with [sys.stdout] still bound
    to the first file, that file is left as it is. *)
Theorem tee_del_closes_the_saved_console
    (self : tee.t) (fl : Files)
    (Hdistinct : fileobj_eqb (tee.fd1 self) (tee.fd2 self) = false)
    (Herr1 : fileobj_eqb (tee.fd1 self) ConsoleErr = false)
    (Herr2 : fileobj_eqb (tee.fd2 self) ConsoleErr = false) :
  let rebound := tee.del (tee.ToTee self) (tee.ToFile ConsoleErr) self fl in
  let bound := tee.del (tee.ToFile (tee.fd1 self)) (tee.ToFile ConsoleErr)
                 self fl in
  (rebound (tee.fd1 self) = mk_filestate (written (fl (tee.fd1 self))) true
   /\ rebound (tee.fd2 self) = mk_filestate (written (fl (tee.fd2 self))) true
   /\ (forall text, fst (tee.write self text rebound) = Raise ValueError)
   /\ fst (tee.flush self rebound) = Raise ValueError)
  /\ bound (tee.fd1 self) = fl (tee.fd1 self)
  /\ bound (tee.fd2 self) = mk_filestate (written (fl (tee.fd2 self))) true.
Proof.
  intros rebound bound. subst rebound bound. unfold tee.del, tee.differs.
  rewrite Herr1, Herr2, fileobj_eqb_refl.
  rewrite (fileobj_eqb_sym (tee.fd2 self) (tee.fd1 self)), Hdistinct.
  cbn [negb andb]. unfold file_close.
  assert (H1 : forall s s' fl0,
             put_file (tee.fd2 self) s' (put_file (tee.fd1 self) s fl0)
               (tee.fd1 self) = s).
  { intros s s' fl0. rewrite put_file_other by exact Hdistinct.
    apply put_file_same. }
  split; [|split].
  - split; [apply H1|]. split.
    + rewrite put_file_same.
      rewrite put_file_other by (rewrite fileobj_eqb_sym; exact Hdistinct).
      reflexivity.
    + split.
      * intros text. unfold tee.write, file_write. rewrite H1. reflexivity.
      * unfold tee.flush, file_flush. rewrite H1. reflexivity.
  - rewrite put_file_other by exact Hdistinct. reflexivity.
  - apply put_file_same.
Qed.

(** X15.  Once the log is open, writing a text through
    [tee(stdout_save, logfile)] does to the console and to the log what
    [sys_stdout_write], the output step of the program's functions, does to
    the world: the text is added to both, and no other file changes. *)
Theorem tee_write_is_the_output_step
    (logname text : string) (w : World) (l : list string)
    (Hlog : logfile w = Some l) :
  let self := tee.init ConsoleOut (Opened logname) in
  let r := tee.write self text (files_of logname w) in
  fst r = Ok tt
  /\ forall f, snd r f = files_of logname (snd (sys_stdout_write text w)) f.
Proof.
  intros self r. subst r self. unfold tee.write, file_write.
  cbn [tee.fd1 tee.fd2]. cbn [files_of closed written].
  rewrite put_file_other by reflexivity.
  cbn [files_of]. rewrite String.eqb_refl, Hlog. cbn [closed written fst snd].
  split; [reflexivity|]. intros f. unfold put_file.
  destruct f as [| |name];
    cbn [fileobj_eqb sys_stdout_write snd files_of stdout logfile];
    rewrite ?Hlog; try reflexivity.
  destruct (String.eqb name logname); reflexivity.
Qed.

End Tee.

(** ** The further statements at work on the sample worlds *)

Local Open Scope string_scope.

Lemma query_yes_no_answer_witness :
  let w := world_of fs_small ["maybe"; "Yes"; "later"] in
  stdin w = (["maybe"] ++ "Yes" :: ["later"])%list
  /\ Forall rejected ["maybe"]
  /\ accepted "Yes" "y"
  /\ fst (query_yes_no "Continue? [y|n]" w) = Ok (VStr "y")
  /\ stdin (snd (query_yes_no "Continue? [y|n]" w)) = ["later"]
  /\ stdout (snd (query_yes_no "Continue? [y|n]" w))
     = ["Continue? [y|n] "; "Please respond y or n" ++ NL; "Continue? [y|n] "].
Proof.
  intros w.
  assert (Hs : stdin w = (["maybe"] ++ "Yes" :: ["later"])%list) by reflexivity.
  assert (Hr : Forall rejected ["maybe"]).
  { constructor; [|constructor]. exists "m"%char, "aybe".
    split; [reflexivity|]. split; discriminate. }
  assert (Ha : accepted "Yes" "y").
  { exists "es". split; [reflexivity | left; reflexivity]. }
  destruct (query_yes_no_answer "Continue? [y|n]" "Yes" ["maybe"] ["later"]
              "y"%char w Hs Hr Ha) as (H1 & H2 & H3 & _).
  split; [exact Hs|]. split; [exact Hr|]. split; [exact Ha|].
  split; [exact H1|]. split; [exact H2 | exact H3].
Defined.

Lemma query_yes_no_gives_up_witness :
  Forall rejected ["maybe"]
  /\ fst (query_yes_no "Continue? [y|n]" (world_of fs_small ["maybe"]))
     = Raise EOFError
  /\ fst (query_yes_no "Continue? [y|n]" (world_of fs_small ["maybe"; ""; "y"]))
     = Raise IndexError.
Proof.
  assert (Hr : Forall rejected ["maybe"]).
  { constructor; [|constructor]. exists "m"%char, "aybe".
    split; [reflexivity|]. split; discriminate. }
  split; [exact Hr|]. split.
  - apply (proj1 (query_yes_no_gives_up "Continue? [y|n]" ["maybe"]
                    (world_of fs_small ["maybe"]) Hr)).
    reflexivity.
  - apply (proj2 (query_yes_no_gives_up "Continue? [y|n]" ["maybe"]
                    (world_of fs_small ["maybe"; ""; "y"]) Hr) ["y"]).
    reflexivity.
Defined.

Lemma do_copy_source_not_a_directory_witness :
  let w := world_of fs_small ["y"; "y"] in
  FS.isdir "/" (fs w) "/root/a.txt" = false
  /\ do_copy "/" (ditto_cp "/") "/root/a.txt" "/T" w = (Raise IndexError, w)
  /\ do_copy "/" (ditto_cp "/") "" "/T" w = (Raise IndexError, w).
Proof.
  intros w.
  assert (H : FS.isdir "/" (fs w) "/root/a.txt" = false)
    by (vm_compute; reflexivity).
  split; [exact H|]. split.
  - apply (do_copy_source_not_a_directory "/" (ditto_cp "/") "/root/a.txt"
             "/T" w (or_intror H)).
  - apply (do_copy_source_not_a_directory "/" (ditto_cp "/") "" "/T" w
             (or_introl eq_refl)).
Defined.

Lemma do_copy_planning_is_read_only_witness :
  let w := world_of fs_small ["y"] in
  fst (do_copy "/" (ditto_cp "/") "/root" "/T" w) = Raise EOFError
  /\ same_disk w (snd (do_copy "/" (ditto_cp "/") "/root" "/T" w))
  /\ fst (do_copy "/" (ditto_cp "/") "" "/T" w) = Raise IndexError
  /\ same_disk w (snd (do_copy "/" (ditto_cp "/") "" "/T" w)).
Proof.
  intros w.
  assert (H : fst (do_copy "/" (ditto_cp "/") "/root" "/T" w) = Raise EOFError)
    by (vm_compute; reflexivity).
  assert (H' : fst (do_copy "/" (ditto_cp "/") "" "/T" w) = Raise IndexError)
    by (vm_compute; reflexivity).
  split; [exact H|]. split.
  - apply (do_copy_planning_is_read_only "/" (ditto_cp "/") "/root" "/T" w
             EOFError H (or_introl eq_refl)).
  - split; [exact H'|].
    apply (do_copy_planning_is_read_only "/" (ditto_cp "/") "" "/T" w
             IndexError H' (or_intror eq_refl)).
Defined.

Lemma transfer_exceptions_are_io_or_os_witness :
  let w := world_of fs_conflict [] in
  fst (copy_dir "/" (ditto_cp "/") "/src/empty" "/dst/empty" w)
  = Raise (OSError EEXIST "/dst/empty")
  /\ io_or_os (OSError EEXIST "/dst/empty").
Proof.
  intros w.
  assert (H : fst (copy_dir "/" (ditto_cp "/") "/src/empty" "/dst/empty" w)
              = Raise (OSError EEXIST "/dst/empty"))
    by (vm_compute; reflexivity).
  split; [exact H|].
  destruct (transfer_exceptions_are_io_or_os "/" (ditto_cp "/")
              "/src/empty" "/dst/empty" [] 0 0 w (OSError EEXIST "/dst/empty"))
    as (_ & Hdir & _).
  exact (Hdir H).
Defined.

Lemma copy_dir_mkdir_only_without_files_witness :
  let w := world_of fs_blocked [] in
  fst (copy_dir "/" (ditto_cp "/") "/root" "/T/." w) = Ok (1, 1)
  /\ mkdirs (events (snd (copy_dir "/" (ditto_cp "/") "/root" "/T/." w))) = [].
Proof.
  intros w.
  assert (H : fst (copy_dir "/" (ditto_cp "/") "/root" "/T/." w) = Ok (1, 1))
    by (vm_compute; reflexivity).
  split; [exact H|].
  rewrite (copy_dir_mkdir_only_without_files "/" (ditto_cp "/")
             "/root" "/T/." w 1 1 H).
  reflexivity.
Defined.

Lemma totals_match_the_record_witness :
  let w := world_of fs_blocked ["y"; "y"] in
  let w' := snd (do_copy "/" (ditto_cp "/") "/root" "/T" w) in
  posixpath.isabs "/" = true
  /\ fst (do_copy "/" (ditto_cp "/") "/root" "/T" w) = Ok (2, 2)
  /\ Z.of_nat (List.length (dittos (events w'))) = 0 + 2
  /\ Z.of_nat (List.length (failed_lines (stdout w'))) = 0 + 2.
Proof.
  intros w w'.
  assert (Ha : posixpath.isabs "/" = true) by reflexivity.
  assert (H : fst (do_copy "/" (ditto_cp "/") "/root" "/T" w) = Ok (2, 2))
    by (vm_compute; reflexivity).
  destruct (totals_match_the_record "/" (ditto_cp "/") "/root" "/T" w 2 2 Ha H)
    as (Hd & Hf & _).
  split; [exact Ha|]. split; [exact H|]. split; [exact Hd | exact Hf].
Defined.

Lemma copy_dir_keeps_names_witness :
  let w := world_of fs_kinds [] in
  FS.listdir "/" (fs w) "/src" = Ok kinds_names
  /\ exists new,
       events (snd (copy_dir "/" (ditto_cp "/") "/src" "/dst" w))
       = (events w ++ new)%list
       /\ Forall (fun e => e = EvMkdir "/dst"
                           \/ entry_event "/src" "/dst" kinds_names e) new.
Proof.
  intros w.
  assert (H : FS.listdir "/" (fs w) "/src" = Ok kinds_names)
    by (vm_compute; reflexivity).
  split; [exact H|].
  apply (copy_dir_keeps_names "/" (ditto_cp "/") "/src" "/dst" w kinds_names H).
Defined.

Lemma do_copy_console_and_log_in_step_witness :
  let w := mkWorld fs_small ["y"; "y"] ["SPPmigrate: now" ++ NL] (Some []) [] in
  logfile w = Some []
  /\ exists added,
       stdout (snd (do_copy "/" (ditto_cp "/") "/root" "/T" w))
       = (stdout w ++ added)%list
       /\ logfile (snd (do_copy "/" (ditto_cp "/") "/root" "/T" w))
          = Some ([] ++ added)%list.
Proof.
  intros w. split; [reflexivity|].
  apply (do_copy_console_and_log_in_step "/" (ditto_cp "/") "/root" "/T" w []).
  reflexivity.
Defined.

Lemma do_main_log_follows_the_console_witness :
  let argv := ["SPPmigrate.py"; "/root"; "/T"] in
  let w := world_of fs_small ["y"; "y"] in
  let r := do_main "/" "now" (ditto_cp "/") argv w in
  List.length argv = 3%nat
  /\ fst r = Ok VNone
  /\ exists added,
       stdout (snd r)
       = (stdout w ++ (banner_line "now" ++ NL)%string :: added)%list
       /\ logfile (snd r) = Some added.
Proof.
  intros argv w r.
  assert (Ha : List.length argv = 3%nat) by reflexivity.
  split; [exact Ha|]. split; [vm_compute; reflexivity|].
  pose proof (do_main_log_follows_the_console "/" "now" (ditto_cp "/")
                argv w Ha) as H.
  cbv zeta in H.
  destruct (FS.open_w "/" (fs w) (log_name "now")) as [fs'|e] eqn:E;
    [|vm_compute in E; discriminate E].
  destruct H as (added & Hout & Hlog & _).
  exists added. split; [exact Hout | exact Hlog].
Defined.

Lemma do_copy_ignores_the_answers_witness :
  let w := world_of fs_small ["n"; "No"] in
  let r := do_copy "/" (ditto_cp "/") "/root" "/T" w in
  let r' := do_copy "/" (ditto_cp "/") "/root" "/T"
              (set_stdin ["y"; "y"] w) in
  stdin w = ["n"; "No"]
  /\ accepted "n" "n" /\ accepted "No" "n" /\ accepted "y" "y"
  /\ fst r = fst r' /\ same_but_stdin (snd r) (snd r').
Proof.
  intros w r r'.
  assert (Hn : accepted "n" "n")
    by (exists ""; split; [reflexivity | right; reflexivity]).
  assert (HN : accepted "No" "n")
    by (exists "o"; split; [reflexivity | right; reflexivity]).
  assert (Hy : accepted "y" "y")
    by (exists ""; split; [reflexivity | left; reflexivity]).
  split; [reflexivity|]. split; [exact Hn|]. split; [exact HN|].
  split; [exact Hy|].
  apply (do_copy_ignores_the_answers "/" (ditto_cp "/") "/root" "/T" w
           "n" "No" "y" "y" "n"%char "n"%char "y"%char "y"%char []
           eq_refl Hn HN Hy Hy).
Defined.

Lemma tee_write_keeps_files_in_step_witness :
  let self := tee.init ConsoleOut (Opened "SPPmigrate.log") in
  let r := tee.write_all self ["Copying a to b"; NL] fresh_files in
  fileobj_eqb (tee.fd1 self) (tee.fd2 self) = false
  /\ closed (fresh_files (tee.fd1 self)) = false
  /\ closed (fresh_files (tee.fd2 self)) = false
  /\ fst r = Ok tt
  /\ snd r ConsoleOut = mk_filestate ["Copying a to b"; NL] false
  /\ snd r (Opened "SPPmigrate.log") = mk_filestate ["Copying a to b"; NL] false.
Proof.
  intros self r.
  destruct (tee_write_keeps_files_in_step self ["Copying a to b"; NL]
              fresh_files eq_refl eq_refl eq_refl) as (H1 & H2 & H3 & _).
  split; [reflexivity|]. split; [reflexivity|]. split; [reflexivity|].
  split; [exact H1|]. split; [exact H2 | exact H3].
Defined.

Lemma tee_del_closes_the_saved_console_witness :
  let self := tee.init ConsoleOut (Opened "SPPmigrate.log") in
  let rebound := tee.del (tee.ToTee self) (tee.ToFile ConsoleErr) self
                   fresh_files in
  fileobj_eqb (tee.fd1 self) (tee.fd2 self) = false
  /\ fileobj_eqb (tee.fd1 self) ConsoleErr = false
  /\ fileobj_eqb (tee.fd2 self) ConsoleErr = false
  /\ closed (rebound ConsoleOut) = true
  /\ fst (tee.write self "All done." rebound) = Raise ValueError.
Proof.
  intros self rebound.
  destruct (tee_del_closes_the_saved_console self fresh_files
              eq_refl eq_refl eq_refl) as ((H1 & _ & Hw & _) & _).
  split; [reflexivity|]. split; [reflexivity|]. split; [reflexivity|].
  split; [|apply Hw].
  change (rebound ConsoleOut) with (rebound (tee.fd1 self)).
  subst rebound. rewrite H1. reflexivity.
Defined.

Lemma tee_write_is_the_output_step_witness :
  let w := mkWorld fs_small [] ["SPPmigrate: now" ++ NL] (Some []) [] in
  let self := tee.init ConsoleOut (Opened "SPPmigrate.log") in
  logfile w = Some []
  /\ fst (tee.write self "Total 2 files." (files_of "SPPmigrate.log" w)) = Ok tt
  /\ snd (tee.write self "Total 2 files." (files_of "SPPmigrate.log" w))
       (Opened "SPPmigrate.log")
     = files_of "SPPmigrate.log"
         (snd (sys_stdout_write "Total 2 files." w)) (Opened "SPPmigrate.log").
Proof.
  intros w self.
  destruct (tee_write_is_the_output_step "SPPmigrate.log" "Total 2 files." w []
              eq_refl) as (H1 & H2).
  split; [reflexivity|]. split; [exact H1 | apply H2].
Defined.

Lemma do_copy_runs_the_plan_witness :
  let w := world_of fs_small ["maybe"; "y"; "n"] in
  let es := [("a.txt", File (text "alpha"));
             ("sub", Dir [("b.txt", File (text "beta"))])] in
  let copy_list := [("/root", "/T/."); ("/root/sub", "/T/sub")] in
  FS.stat "/" (fs w) "root" = Some (Dir es)
  /\ stdin w = (["maybe"] ++ "y" :: [] ++ "n" :: [])%list
  /\ Forall rejected ["maybe"] /\ accepted "y" "y"
  /\ Forall rejected [] /\ accepted "n" "n"
  /\ exists shown : list string,
       do_copy "/" (ditto_cp "/") "root" "T" w
       = copy_loop "/" (ditto_cp "/") copy_list 0 0 (after_planning [] shown w)
       /\ shown
          = ["Source directory: /root" ++ NL; "Found 2 directories..." ++ NL;
             "/root 1 files" ++ NL; "/root/sub 1 files" ++ NL;
             "Total 2 files." ++ NL;
             "Continue? [y|n] "; "Please respond y or n" ++ NL;
             "Continue? [y|n] ";
             "Target directory: /T" ++ NL;
             "Will copy /root to /T/." ++ NL;
             "Will copy /root/sub to /T/sub" ++ NL;
             "Continue? [y|n] "].
Proof.
  intros w es copy_list.
  assert (Hs : FS.stat "/" (fs w) "root" = Some (Dir es))
    by (vm_compute; reflexivity).
  assert (Hin : stdin w = (["maybe"] ++ "y" :: [] ++ "n" :: [])%list)
    by reflexivity.
  assert (Hr : Forall rejected ["maybe"]).
  { constructor; [|constructor]. exists "m"%char, "aybe".
    split; [reflexivity|]. split; discriminate. }
  assert (Hy : accepted "y" "y")
    by (exists ""; split; [reflexivity | left; reflexivity]).
  assert (Hn : accepted "n" "n")
    by (exists ""; split; [reflexivity | right; reflexivity]).
  split; [exact Hs|]. split; [exact Hin|]. split; [exact Hr|].
  split; [exact Hy|]. split; [constructor|]. split; [exact Hn|].
  destruct (do_copy_runs_the_plan "/" (ditto_cp "/") "root" "T" w es
              ["maybe"] [] [] "y" "n" "y"%char "n"%char
              Hs Hin Hr Hy (Forall_nil _) Hn) as (plan & Hplan & Hrun).
  vm_compute in Hplan. injection Hplan as <-.
  eexists. split; [exact Hrun|]. vm_compute. reflexivity.
Defined.


